(** * LiveEditorLocalDriver: session manager of the live CSS shapes editor

    A shallow embedding of [src/LiveEditorLocalDriver.js].  The module keeps
    a local snapshot of an editor that lives in the inspected page, talks to
    it by evaluating expressions through the Inspector, polls it on a timer
    and re-injects its scripts when the page lost them.

    How the JavaScript is represented:
    - the module variables ([_model], [_hasEditor], [_syncInterval],
      [_retryCount], [_cache]) and the part of the host they touch (the
      Inspector connection, the interval timers, the evaluations that were
      issued and await their answer, the [Model] instances of the code
      editor) form one record, [World];
    - every function is a computation in a small monad with state, a trace
      of observable effects and exceptions;
    - a Deferred of jQuery 1.8 to 2.x, the versions Brackets ships: a handler
      added to an already rejected Deferred runs at once, a handler of a
      pending one runs when the answer of the evaluation arrives, and an
      exception raised by a handler is not caught by the Deferred;
    - the snapshot is a finite map from keys to JSON values (the special
      key [__proto__] of JavaScript objects is not represented);
    - what the driver takes from outside is a parameter ([Platform]): the
      text of the remote driver, [JSON.stringify], [JSON.parse], the
      conversions of [==] and lodash's [_.isEqual];
    - console output is not represented. *)

From Stdlib Require Import ZArith Lia Bool.
From stdpp Require Import gmap strings list pretty.

Set Warnings "-register-all".
Local Open Scope string_scope.
Local Open Scope list_scope.
Local Open Scope Z_scope.

(** ** JSON values *)

(** What [JSON.parse] produces.  Numbers are the integers, and the negative
    zero of JavaScript, which [JSON.parse] gives for the text [-0], is a
    value of its own: the driver tests numbers for zero and hands them to
    [_.isEqual], which tells the two zeros apart.  Numbers with a fraction
    are not represented.  The properties of an object come in
    enumeration order. *)
Inductive json : Type :=
| JNull
| JBool (b : bool)
| JNum (n : Z)
| JNegZero
| JStr (s : string)
| JArr (items : list json)
| JObj (props : list (string * json)).

(** [!v] is [negb (truthy v)]; a missing property reads as [undefined]. *)
Definition truthy (v : option json) : bool :=
  match v with
  | None => false
  | Some JNull => false
  | Some (JBool b) => b
  | Some (JNum n) => negb (n =? 0)
  | Some JNegZero => false
  | Some (JStr s) => negb (String.eqb s EmptyString)
  | Some (JArr _) => true
  | Some (JObj _) => true
  end.

Fixpoint assoc (k : string) (ps : list (string * json)) : option json :=
  match ps with
  | [] => None
  | (k', v) :: ps' => if String.eqb k k' then Some v else assoc k ps'
  end.

(** Deep equality of JSON values, blind to the order of the properties of
    an object and with [+0] and [-0] not equal: the [_.isEqual] of the
    sample platform below. *)
Fixpoint deep_equal (a b : json) {struct a} : bool :=
  match a, b with
  | JNull, JNull => true
  | JBool x, JBool y => Bool.eqb x y
  | JNum x, JNum y => x =? y
  | JNegZero, JNegZero => true
  | JStr x, JStr y => String.eqb x y
  | JArr xs, JArr ys =>
      (fix items (xs ys : list json) {struct xs} : bool :=
         match xs, ys with
         | [], [] => true
         | x :: xs', y :: ys' => deep_equal x y && items xs' ys'
         | _, _ => false
         end) xs ys
  | JObj ps, JObj qs =>
      Nat.eqb (length ps) (length qs) &&
      (fix props (ps : list (string * json)) {struct ps} : bool :=
         match ps with
         | [] => true
         | (k, v) :: ps' =>
             match assoc k qs with
             | Some w => deep_equal v w
             | None => false
             end && props ps'
         end) ps
  | _, _ => false
  end.

Fixpoint chars (s : string) : list json :=
  match s with
  | EmptyString => []
  | String c s' => JStr (String c EmptyString) :: chars s'
  end.

Definition indexed (l : list json) : list (string * json) :=
  imap (fun i v => (pretty i, v)) l.

(** The keys [for (var key in data)] visits, each with [data[key]]. *)
Definition for_in (data : json) : list (string * json) :=
  match data with
  | JObj ps => ps
  | JArr items => indexed items
  | JStr s => indexed (chars s)
  | _ => []
  end.

(** ** The code editor's models and the remote answers *)

(** The attributes a [Model] instance answers to [model.get]. *)
Record Attrs : Type := mkAttrs {
  selector : string;
  value : string;
  property : string
}.

(** A [Model] is an object of the code editor: the driver holds a reference
    to it and reads its attributes when it needs them. *)
Definition ModelRef : Type := nat.

(** The [result] of an evaluation: a RemoteObject of the Inspector. *)
Record RemoteObject : Type := mkRemoteObject {
  ro_value : option json;
  description : option string
}.

(** What [Inspector.Runtime.evaluate] hands to its callback. *)
Record Response : Type := mkResponse {
  wasThrown : bool;
  result : option RemoteObject
}.

(** The handlers a caller chains on the promise of [_call]. *)
Inductive Handlers : Type :=
| NoHandlers
| OnSetup            (* .then(_startSyncLoop).then(function(){ _hasEditor = true }).fail(_whenRemoteCallFailed) *)
| OnUpdate           (* .fail(_whenRemoteCallFailed) *)
| OnRemoveThenSetup (model : ModelRef)  (* .then(function(){ return _setup(model); }) *)
| OnSync             (* .then(_whenGetRemoteModel).fail(_whenRemoteCallFailed) *)
| OnReconnect.       (* .then(onPostInit) *)

Inductive PState : Type :=
| Resolved
| Rejected
| InFlight (id : nat).

(** What a function of the driver returns.  A promise is identified with the
    evaluation it waits for. *)
Inductive Ret : Type :=
| Undefined
| Promise (p : PState).

Inductive Exn : Type :=
| TypeError
| SyntaxError.

Inductive Effect : Type :=
| Evaluate (id : nat) (expression : string)
| TriggerInit
| TriggerModelChange (snapshot : gmap string json)
| Raise (e : Exn).

(** ** The state *)

Record World : Type := mkWorld {
  (* module variables *)
  _model : gmap string json;
  _hasEditor : bool;
  _syncInterval : option nat;
  _retryCount : Z;
  _cache_model : option ModelRef;
  _cache_dependencies : option (list string);
  (* host *)
  connected : bool;
  models : ModelRef -> Attrs;
  timers : list nat;
  next_timer : nat;
  pending : list (nat * Handlers);
  next_call : nat
}.

Definition set_model (m : gmap string json) (w : World) : World :=
  mkWorld m (_hasEditor w) (_syncInterval w) (_retryCount w) (_cache_model w)
    (_cache_dependencies w) (connected w) (models w) (timers w) (next_timer w)
    (pending w) (next_call w).

Definition set_hasEditor (b : bool) (w : World) : World :=
  mkWorld (_model w) b (_syncInterval w) (_retryCount w) (_cache_model w)
    (_cache_dependencies w) (connected w) (models w) (timers w) (next_timer w)
    (pending w) (next_call w).

Definition set_syncInterval (t : option nat) (w : World) : World :=
  mkWorld (_model w) (_hasEditor w) t (_retryCount w) (_cache_model w)
    (_cache_dependencies w) (connected w) (models w) (timers w) (next_timer w)
    (pending w) (next_call w).

Definition set_retryCount (n : Z) (w : World) : World :=
  mkWorld (_model w) (_hasEditor w) (_syncInterval w) n (_cache_model w)
    (_cache_dependencies w) (connected w) (models w) (timers w) (next_timer w)
    (pending w) (next_call w).

Definition set_cache_model (m : option ModelRef) (w : World) : World :=
  mkWorld (_model w) (_hasEditor w) (_syncInterval w) (_retryCount w) m
    (_cache_dependencies w) (connected w) (models w) (timers w) (next_timer w)
    (pending w) (next_call w).

Definition set_cache_dependencies (d : option (list string)) (w : World) : World :=
  mkWorld (_model w) (_hasEditor w) (_syncInterval w) (_retryCount w) (_cache_model w)
    d (connected w) (models w) (timers w) (next_timer w)
    (pending w) (next_call w).

Definition set_connected (b : bool) (w : World) : World :=
  mkWorld (_model w) (_hasEditor w) (_syncInterval w) (_retryCount w) (_cache_model w)
    (_cache_dependencies w) b (models w) (timers w) (next_timer w)
    (pending w) (next_call w).

Definition set_models (f : ModelRef -> Attrs) (w : World) : World :=
  mkWorld (_model w) (_hasEditor w) (_syncInterval w) (_retryCount w) (_cache_model w)
    (_cache_dependencies w) (connected w) f (timers w) (next_timer w)
    (pending w) (next_call w).

Definition set_pending (p : list (nat * Handlers)) (w : World) : World :=
  mkWorld (_model w) (_hasEditor w) (_syncInterval w) (_retryCount w) (_cache_model w)
    (_cache_dependencies w) (connected w) (models w) (timers w) (next_timer w)
    p (next_call w).

(** [window.setInterval]: a fresh timer, now active *)
Definition setInterval (w : World) : nat * World :=
  (next_timer w,
   mkWorld (_model w) (_hasEditor w) (_syncInterval w) (_retryCount w) (_cache_model w)
     (_cache_dependencies w) (connected w) (models w)
     (next_timer w :: timers w) (S (next_timer w)) (pending w) (next_call w)).

(** [window.clearInterval]: nothing happens for [undefined] or a dead timer *)
Definition clearInterval (t : option nat) (w : World) : World :=
  match t with
  | None => w
  | Some id =>
      mkWorld (_model w) (_hasEditor w) (_syncInterval w) (_retryCount w) (_cache_model w)
        (_cache_dependencies w) (connected w) (models w)
        (filter (fun i => i <> id) (timers w)) (next_timer w) (pending w) (next_call w)
  end.

(** [Inspector.Runtime.evaluate]: the expression leaves, its answer is awaited *)
Definition evaluate (w : World) : nat * World :=
  (next_call w,
   mkWorld (_model w) (_hasEditor w) (_syncInterval w) (_retryCount w) (_cache_model w)
     (_cache_dependencies w) (connected w) (models w) (timers w) (next_timer w)
     (pending w ++ [(next_call w, NoHandlers)]) (S (next_call w))).

(** The session as the module creates it. *)
Definition initial (c : bool) (ms : ModelRef -> Attrs) : World :=
  mkWorld ∅ false None 5 None None c ms [] 0%nat [] 0%nat.

(** ** The monad *)

Inductive Completion (A : Type) : Type :=
| Normal (a : A)
| Throw (e : Exn).
Arguments Normal {A} a.
Arguments Throw {A} e.

Definition M (A : Type) : Type := World -> World * list Effect * Completion A.

Definition ret {A} (a : A) : M A := fun w => (w, [], Normal a).
Definition throw {A} (e : Exn) : M A := fun w => (w, [], Throw e).
Definition bind {A B} (m : M A) (k : A -> M B) : M B :=
  fun w =>
    match m w with
    | (w1, t1, Normal a) =>
        match k a w1 with
        | (w2, t2, c) => (w2, t1 ++ t2, c)
        end
    | (w1, t1, Throw e) => (w1, t1, Throw e)
    end.
Definition get : M World := fun w => (w, [], Normal w).
Definition modify (f : World -> World) : M unit := fun w => (f w, [], Normal tt).
Definition emit (e : Effect) : M unit := fun w => (w, [e], Normal tt).

#[global] Instance M_ret : MRet M := @ret.
#[global] Instance M_bind : MBind M := fun A B k m => bind m k.

(** ** The driver *)

(** [/pattern/.test(s)] for a pattern without metacharacters *)
Fixpoint includes (pattern s : string) : bool :=
  if String.prefix pattern s then true
  else match s with
       | EmptyString => false
       | String _ s' => includes pattern s'
       end.

(** [a === v] for a string [a] and a property that may be missing *)
Definition strict_eq (a : string) (v : option json) : bool :=
  match v with
  | Some (JStr s) => String.eqb a s
  | _ => false
  end.

(** What the driver takes from its platform. *)
Class Platform : Type := {
  (** the text of LiveEditorRemoteDriver.js, loaded by [require('text!...')] *)
  LiveEditorRemoteDriver : string;
  (** [JSON.stringify] of the attributes *)
  JSON_stringify : Attrs -> string;
  (** [JSON.parse]; [None] when it raises a SyntaxError *)
  JSON_parse : string -> option json;
  (** the conversions [==] makes between a string and a value that is
      neither a string, [null] nor [undefined] *)
  coerce_eq : string -> json -> bool;
  (** [_.isEqual] of thirdparty/lodash, on two JSON values *)
  isEqual : json -> json -> bool
}.

Section Driver.

Context `{Platform}.

(** [a == v] for a string [a] and a property that may be missing *)
Definition loose_eq (a : string) (v : option json) : bool :=
  match v with
  | None => false
  | Some JNull => false
  | Some (JStr s) => String.eqb a s
  | Some x => coerce_eq a x
  end.

(** [_.isEqual(_model[key], data[key])]: the test is reached with an entry
    that reads as true only; a missing entry reads as false. *)
Definition isEqual_prop (o : option json) (v : json) : bool :=
  match o with
  | Some x => isEqual x v
  | None => false
  end.

Definition _namespace : string := "window._LD_CSS_EDITOR".

Definition setup_expr (attr : Attrs) : string :=
  _namespace +:+ ".setup(" +:+ JSON_stringify attr +:+ ")".
Definition update_expr (attr : Attrs) : string :=
  _namespace +:+ ".update(" +:+ JSON_stringify attr +:+ ")".
Definition remove_expr : string := _namespace +:+ ".remove()".
Definition getModel_expr : string := _namespace +:+ ".getModel()".

(** [.then(...)], [.fail(...)] on the promise of [_call]: the handlers wait
    for the answer of the evaluation. *)
Definition attach (p : PState) (h : Handlers) : M unit :=
  match p with
  | InFlight id =>
      modify (fun w =>
        set_pending (map (fun e => if Nat.eqb (fst e) id then (id, h) else e)
                         (pending w)) w)
  | _ => ret tt
  end.

Definition _call (expression : string) : M PState :=
  if String.eqb expression EmptyString then throw TypeError
  else
    w ← get;
    if negb (connected w) then ret Rejected
    else
      fun w => let (id, w') := evaluate w in
               (w', [Evaluate id expression], Normal (InFlight id)).

Definition _stopSyncLoop : M unit :=
  modify (fun w => clearInterval (_syncInterval w) w).

Definition _startSyncLoop : M unit :=
  fun w => let (id, w') := setInterval w in
           (set_syncInterval (Some id) w', [], Normal tt).

Definition _reset : M unit :=
  _stopSyncLoop;;
  modify (set_hasEditor false);;
  modify (set_model ∅).

Definition _remove : M Ret :=
  w ← get;
  if negb (_hasEditor w) then ret Undefined
  else
    _reset;;
    p ← _call remove_expr;
    ret (Promise p).

Definition _init (providers : option (list string)) : M PState :=
  let scripts := LiveEditorRemoteDriver :: default [] providers in
  modify (set_cache_dependencies (Some scripts));;
  emit TriggerInit;;
  _call (String.concat ";" scripts).

Definition _reconnect : M Ret :=
  w ← get;
  if _retryCount w =? 0 then ret (Promise Rejected)
  else
    modify (set_retryCount (_retryCount w - 1));;
    p ← _init (_cache_dependencies w);
    attach p OnReconnect;;
    ret (Promise p).

(** [result && result.description && /Cannot call method/.test(result.description)] *)
Definition lostContext (result : option RemoteObject) : bool :=
  match result with
  | Some r =>
      match description r with
      | Some d => negb (String.eqb d EmptyString) && includes "Cannot call method" d
      | None => false
      end
  | None => false
  end.

Definition _whenRemoteCallFailed (result : option RemoteObject) : M Ret :=
  if lostContext result then _reconnect
  else
    modify (set_cache_model None);;
    _remove.

(** A [.fail(_whenRemoteCallFailed)] added to a Deferred that [_call]
    rejected without a round trip runs at once, with no argument. *)
Definition fail_now (p : PState) : M unit :=
  match p with
  | Rejected => _whenRemoteCallFailed None;; ret tt
  | _ => ret tt
  end.

(** [_setup] and [_update] call each other; each is written here over the
    other one. *)
Definition setup_body (update : option ModelRef -> M Ret)
    (model : option ModelRef) : M Ret :=
  modify (fun w =>
    set_cache_model (match _cache_model w with
                     | Some c => Some c
                     | None => model
                     end) w);;
  match model with
  | None => throw TypeError
  | Some r =>
      w ← get;
      let attr := models w r in
      if _hasEditor w
         && (loose_eq (selector attr) (_model w !! "selector")
             && loose_eq (property attr) (_model w !! "property"))
      then update model
      else
        p ← _call (setup_expr attr);
        attach p OnSetup;;
        fail_now p;;
        ret (Promise p)
  end.

Definition update_body (setup : option ModelRef -> M Ret)
    (model : option ModelRef) : M Ret :=
  match model with
  | None => throw TypeError
  | Some r =>
      w ← get;
      if negb (_hasEditor w) then setup model
      else
        modify (set_cache_model (Some r));;
        let attr := models w r in
        if negb (strict_eq (selector attr) (_model w !! "selector"))
           || negb (strict_eq (property attr) (_model w !! "property"))
        then
          removed ← _remove;
          match removed with
          | Undefined => throw TypeError
          | Promise p => attach p (OnRemoveThenSetup r);; ret (Promise p)
          end
        else
          p ← _call (update_expr attr);
          attach p OnUpdate;;
          fail_now p;;
          ret (Promise p)
  end.

(** The mutual calls end after two steps: [_update] calls [_setup] only
    without an editor, and [_setup] calls [_update] only with one (see
    [_setup_eq] and [_update_eq]). *)
Definition _setup : option ModelRef -> M Ret :=
  setup_body (update_body (setup_body (fun _ => throw TypeError))).

Definition _update : option ModelRef -> M Ret :=
  update_body _setup.

(** One key of the loop of [_whenGetRemoteModel]. *)
Definition sync_key (acc : gmap string json * bool) (kv : string * json)
    : gmap string json * bool :=
  if negb (truthy (acc.1 !! kv.1)) || negb (isEqual_prop (acc.1 !! kv.1) kv.2)
  then (<[kv.1 := kv.2]> acc.1, true)
  else acc.

(** The loop and the notification of [_whenGetRemoteModel], on the parsed data. *)
Definition sync (data : json) : M unit :=
  w ← get;
  let out := foldl sync_key (_model w, false) (for_in data) in
  modify (set_model out.1);;
  if out.2 then emit (TriggerModelChange out.1) else ret tt.

Definition _whenGetRemoteModel (model : option RemoteObject) : M unit :=
  match model with
  | None => throw TypeError
  | Some m =>
      match ro_value m with
      | Some (JStr text) =>
          if String.eqb text EmptyString then throw TypeError
          else match JSON_parse text with
               | None => throw SyntaxError
               | Some data => sync data
               end
      | _ => throw TypeError
      end
  end.

Definition _onSyncTick : M unit :=
  p ← _call getModel_expr;
  attach p OnSync;;
  fail_now p.

(** The local function of [_reconnect]. *)
Definition onPostInit : M unit :=
  _reset;;
  w ← get;
  _setup (_cache_model w);;
  modify (set_retryCount 5).

(** ** The answers of the remote side and the events of a session *)

Definition on_resolve (h : Handlers) (v : option RemoteObject) : M unit :=
  match h with
  | OnSetup => _startSyncLoop;; modify (set_hasEditor true)
  | OnRemoveThenSetup model => _setup (Some model);; ret tt
  | OnSync => _whenGetRemoteModel v
  | OnReconnect => onPostInit
  | OnUpdate | NoHandlers => ret tt
  end.

Definition on_reject (h : Handlers) (v : option RemoteObject) : M unit :=
  match h with
  | OnSetup | OnUpdate | OnSync => _whenRemoteCallFailed v;; ret tt
  | OnRemoveThenSetup _ | OnReconnect | NoHandlers => ret tt
  end.

(** The callback [_call] gives to [Inspector.Runtime.evaluate], for the
    evaluation whose handlers are [h]. *)
Definition callback (h : Handlers) (resp : option Response) : M unit :=
  match resp with
  | None => throw TypeError
  | Some r => if wasThrown r then on_reject h (result r)
              else on_resolve h (result r)
  end.

Definition handlers_of (id : nat) (w : World) : option Handlers :=
  snd <$> List.find (fun e => Nat.eqb (fst e) id) (pending w).

(** The state once the answer of evaluation [id] arrived: it is no longer
    awaited. *)
Definition answered (id : nat) (w : World) : World :=
  set_pending (filter (fun e => fst e <> id) (pending w)) w.

Inductive Event : Type :=
| CallInit (providers : option (list string))
| CallSetup (model : option ModelRef)
| CallUpdate (model : option ModelRef)
| CallRemove
| Tick (timer : nat)
| Answer (id : nat) (resp : option Response)
| Connection (up : bool)
| ModelSet (r : ModelRef) (attr : Attrs).

(** What an event makes the driver run; [None] when the event cannot
    happen (a dead timer, an evaluation that does not wait). *)
Definition react (ev : Event) (w : World) : option (M unit) :=
  match ev with
  | CallInit providers => Some (_init providers;; ret tt)
  | CallSetup model => Some (_setup model;; ret tt)
  | CallUpdate model => Some (_update model;; ret tt)
  | CallRemove => Some (_remove;; ret tt)
  | Tick timer =>
      if bool_decide (timer ∈ timers w) then Some _onSyncTick else None
  | Answer id resp =>
      match handlers_of id w with
      | Some h =>
          Some (modify (answered id);; callback h resp)
      | None => None
      end
  | Connection up => Some (modify (set_connected up))
  | ModelSet r attr =>
      Some (modify (fun w =>
        set_models (fun r' => if Nat.eqb r' r then attr else models w r') w))
  end.

(** One event: the new state and what was observed, an exception that
    left the driver included. *)
Definition step (ev : Event) (w : World) : option (World * list Effect) :=
  match react ev w with
  | None => None
  | Some m =>
      match m w with
      | (w', t, Normal _) => Some (w', t)
      | (w', t, Throw e) => Some (w', t ++ [Raise e])
      end
  end.

Fixpoint run (evs : list Event) (w : World) : option (World * list Effect) :=
  match evs with
  | [] => Some (w, [])
  | ev :: evs' =>
      match step ev w with
      | None => None
      | Some (w1, t1) =>
          match run evs' w1 with
          | None => None
          | Some (w2, t2) => Some (w2, t1 ++ t2)
          end
      end
  end.

(** ** Vocabulary of the properties *)

(** The answer [ev] is a failure that [_whenRemoteCallFailed] receives and
    reads as a lost context. *)
Definition lost_failure (ev : Event) (w : World) : bool :=
  match ev with
  | Answer id (Some resp) =>
      wasThrown resp && lostContext (result resp) &&
      match handlers_of id w with
      | Some OnSetup | Some OnUpdate | Some OnSync => true
      | _ => false
      end
  | _ => false
  end.

(** The answer [ev] tells that the injection of a reconnect succeeded. *)
Definition injection_success (ev : Event) (w : World) : bool :=
  match ev with
  | Answer id (Some resp) =>
      negb (wasThrown resp) &&
      match handlers_of id w with
      | Some OnReconnect => true
      | _ => false
      end
  | _ => false
  end.

(** How many events of a run satisfy [P] in the state they meet. *)
Fixpoint count_along (P : Event -> World -> bool) (evs : list Event)
    (w : World) : nat :=
  match evs with
  | [] => 0%nat
  | ev :: evs' =>
      ((if P ev w then 1 else 0) +
       match step ev w with
       | Some (w1, _) => count_along P evs' w1
       | None => 0
       end)%nat
  end.

(** The JSON text a [getModel] answer carries, if it carries one. *)
Definition model_text (v : option RemoteObject) : option string :=
  match v with
  | Some m =>
      match ro_value m with
      | Some (JStr text) => Some text
      | _ => None
      end
  | None => None
  end.

(** The answer of [getModel] is missing, not a string, or not JSON. *)
Definition malformed (v : option RemoteObject) : bool :=
  match model_text v with
  | None => true
  | Some text =>
      String.eqb text EmptyString ||
      match JSON_parse text with
      | None => true
      | Some _ => false
      end
  end.

(** What [_whenGetRemoteModel] raises on such an answer: the TypeError of
    its own test, or the SyntaxError of [JSON.parse]. *)
Definition malformed_error (v : option RemoteObject) : Exn :=
  match model_text v with
  | Some text => if String.eqb text EmptyString then TypeError else SyntaxError
  | None => TypeError
  end.

(** The evaluations among the effects. *)
Definition evaluations (t : list Effect) : list string :=
  omap (fun e => match e with Evaluate _ x => Some x | _ => None end) t.

(** The state once an expression left through [_call] and the handlers [h]
    were chained on its promise. *)
Definition issued (h : Handlers) (w : World) : World :=
  (attach (InFlight (next_call w)) h (evaluate w).2).1.1.

(** The computation [m] leaves the retry count as it found it. *)
Definition keeps_retryCount {A} (m : M A) : Prop :=
  forall w, _retryCount (m w).1.1 = _retryCount w.

(** The computation [m], started in a state where [I] holds, ends in such a
    state, and all its effects satisfy [P]. *)
Definition holds (I : World -> Prop) (P : Effect -> Prop) {A} (m : M A)
    : Prop :=
  forall w, I w -> I (m w).1.1 /\ Forall P (m w).1.2.

(** The effect is an expression that leaves for the page. *)
Definition is_evaluation (e : Effect) : bool :=
  match e with
  | Evaluate _ _ => true
  | _ => false
  end.

(** The effect is not the evaluation of the empty expression. *)
Definition sends_text (e : Effect) : Prop :=
  match e with
  | Evaluate _ x => x <> EmptyString
  | _ => True
  end.

(** With an editor, the timer kept in [_syncInterval] is running. *)
Definition loop_running (w : World) : bool :=
  negb (_hasEditor w)
  || match _syncInterval w with
     | Some id => bool_decide (id ∈ timers w)
     | None => false
     end.

(** [_.isEqual] finds a value that reads as false ([null], [false], a zero,
    the empty string) equal to itself only, as deep equality does. *)
Definition falsy_exact : Prop :=
  forall a b, truthy (Some a) = false -> isEqual a b = true -> b = a.

(** The entry of the snapshot is the string [a], or is not there yet. *)
Definition entry_is (a : string) (v : option json) : bool :=
  match v with
  | None => true
  | Some _ => strict_eq a v
  end.

(** The session has an editor and its snapshot is not behind the target
    [a] of that editor: the selector and the property it records, once a
    poll brought them, are those of [a].  The driver keeps no variable for
    the target of its editor; a successful [_setup] of [a] and the polls of
    the editor of [a] lead to such a session. *)
Definition active_for (a : Attrs) (w : World) : bool :=
  _hasEditor w
  && entry_is (selector a) (_model w !! "selector")
  && entry_is (property a) (_model w !! "property").

(** The target [t] is not the element and property of [a]. *)
Definition other_target (t a : Attrs) : bool :=
  negb (String.eqb (selector t) (selector a))
  || negb (String.eqb (property t) (property a)).

(** The computation [m] evaluates nothing in the page. *)
Definition silent {A} (m : M A) : Prop :=
  forall w, evaluations (m w).1.2 = [].

(** The computation [m] evaluates at most one expression in the page. *)
Definition sends_at_most_one {A} (m : M A) : Prop :=
  forall w, (length (evaluations (m w).1.2) <= 1)%nat.

End Driver.

(** ** Sample data *)

Definition dq : string := String (Ascii.ascii_of_nat 34) EmptyString.
Definition quoted (s : string) : string := dq +:+ s +:+ dq.

Definition text_bc : string :=
  "{" +:+ quoted "b" +:+ ":3," +:+ quoted "c" +:+ ":4}".
Definition text_abc : string :=
  "{" +:+ quoted "a" +:+ ":1," +:+ quoted "b" +:+ ":3," +:+ quoted "c" +:+ ":4}".
Definition text_a0 : string := "{" +:+ quoted "a" +:+ ":0}".
Definition text_v : string := "{" +:+ quoted "value" +:+ ":" +:+ dq +:+ dq +:+ "}".
Definition text_model : string :=
  "{" +:+ quoted "selector" +:+ ":" +:+ quoted "div" +:+ "," +:+
  quoted "property" +:+ ":" +:+ quoted "shape-inside" +:+ "," +:+
  quoted "value" +:+ ":" +:+ quoted "circle(50%)" +:+ "}".

(** A platform for the examples: a driver text, attributes printed without
    escapes, a parser that knows the texts above, no conversion by [==], and
    deep equality for [_.isEqual]. *)
Definition sample : Platform := {|
  LiveEditorRemoteDriver := "/* LiveEditorRemoteDriver.js */";
  JSON_stringify := fun a =>
    "{" +:+ quoted "selector" +:+ ":" +:+ quoted (selector a) +:+ "," +:+
    quoted "value" +:+ ":" +:+ quoted (value a) +:+ "," +:+
    quoted "property" +:+ ":" +:+ quoted (property a) +:+ "}";
  JSON_parse := fun s =>
    if String.eqb s text_bc then Some (JObj [("b", JNum 3); ("c", JNum 4)])
    else if String.eqb s text_abc
         then Some (JObj [("a", JNum 1); ("b", JNum 3); ("c", JNum 4)])
    else if String.eqb s text_a0 then Some (JObj [("a", JNum 0)])
    else if String.eqb s text_v then Some (JObj [("value", JStr EmptyString)])
    else if String.eqb s text_model
         then Some (JObj [("selector", JStr "div");
                          ("property", JStr "shape-inside");
                          ("value", JStr "circle(50%)")])
    else None;
  coerce_eq := fun _ _ => false;
  isEqual := deep_equal
|}.

(** Two models of the code editor: the same element and property with two
    values, and every other reference another element. *)
Definition sample_models (r : ModelRef) : Attrs :=
  match r with
  | 0%nat => mkAttrs "div" "circle(50%)" "shape-inside"
  | 1%nat => mkAttrs "div" "ellipse(40% 50%)" "shape-inside"
  | _ => mkAttrs "h1" "polygon(0 0, 100% 0, 0 100%)" "shape-outside"
  end.

(** A snapshot after a poll of the editor of model 0. *)
Definition sample_snapshot : gmap string json :=
  <["selector" := JStr "div"]>
    (<["property" := JStr "shape-inside"]>
       (<["value" := JStr "circle(50%)"]> ∅)).

(** A session with the editor of model 0 set up and polled once, its timer
    running (see [sample_active_reached]). *)
Definition sample_active (up : bool) : World :=
  mkWorld sample_snapshot true (Some 0%nat) 5 (Some 0%nat) None up
    sample_models [0%nat] 1%nat [] 2%nat.

(** Answers of the page: a success without a value, a success that carries
    a text, an exception of the page's own, and the exception of a call on
    the namespace that is gone. *)
Definition answer_ok : option Response := Some (mkResponse false None).

Definition answer_text (text : string) : option Response :=
  Some (mkResponse false (Some (mkRemoteObject (Some (JStr text)) None))).

Definition answer_fault : option Response :=
  Some (mkResponse true
          (Some (mkRemoteObject None
                   (Some "ReferenceError: shape is not defined")))).

Definition answer_lost : option Response :=
  Some (mkResponse true
          (Some (mkRemoteObject None
                   (Some "TypeError: Cannot call method 'getModel' of undefined")))).

(** Six polls are sent before the page answers, and it answers five of
    them with a lost context. *)
Definition five_lost_contexts : list Event :=
  [Tick 0; Tick 0; Tick 0; Tick 0; Tick 0; Tick 0;
   Answer 2 answer_lost; Answer 3 answer_lost; Answer 4 answer_lost;
   Answer 5 answer_lost; Answer 6 answer_lost].

(** An editor is set up and two polls are sent; the page answers the first
    with an exception of its own and the second, after a reload, with a
    lost context; the injection of the reconnect then succeeds. *)
Definition restore_without_model : list Event :=
  [CallSetup (Some 0%nat); Answer 0 answer_ok; Tick 0; Tick 0;
   Answer 1 answer_fault; Answer 2 answer_lost; Answer 4 answer_ok].

(** ** Properties *)

Ltac mstep :=
  cbv beta iota delta
    [mbind mret M_bind M_ret bind ret throw get modify emit].

Ltac world_simpl :=
  cbn [_model _hasEditor _syncInterval _retryCount _cache_model
       _cache_dependencies connected models timers next_timer pending
       next_call set_model set_hasEditor set_syncInterval set_retryCount
       set_cache_model set_cache_dependencies set_connected set_models
       set_pending
       evaluate setInterval fst snd negb andb orb app].

Section Properties.

Context `{Platform}.

(** *** The equations of the source for [_setup] and [_update] *)

Lemma update_body_with_editor (f g : option ModelRef -> M Ret) m w :
  _hasEditor w = true -> update_body f m w = update_body g m w.
Proof.
  intros E. destruct m as [r|]; [|reflexivity].
  unfold update_body. mstep. rewrite E. reflexivity.
Qed.

Lemma _setup_eq m w : _setup m w = setup_body _update m w.
Proof.
  unfold _update, _setup.
  destruct m as [r|]; [|reflexivity].
  unfold setup_body at 1 3. mstep. world_simpl.
  destruct (_hasEditor w) eqn:E; [|reflexivity].
  cbn [andb].
  match goal with |- context [if ?c then _ else _] => destruct c end;
    [|reflexivity].
  erewrite update_body_with_editor; [reflexivity|exact E].
Qed.

Lemma _update_eq m w : _update m w = update_body _setup m w.
Proof. reflexivity. Qed.

(** *** The expressions sent to the page *)

Lemma setup_expr_not_empty a : String.eqb (setup_expr a) EmptyString = false.
Proof. reflexivity. Qed.

Lemma update_expr_not_empty a : String.eqb (update_expr a) EmptyString = false.
Proof. reflexivity. Qed.

Lemma update_expr_not_remove a : update_expr a <> remove_expr.
Proof. unfold update_expr, remove_expr, _namespace. cbn. discriminate. Qed.

Lemma setup_expr_not_remove a : setup_expr a <> remove_expr.
Proof. unfold setup_expr, remove_expr, _namespace. cbn. discriminate. Qed.

Lemma _call_connected e w :
  String.eqb e EmptyString = false -> connected w = true ->
  _call e w = ((evaluate w).2, [Evaluate (next_call w) e],
               Normal (InFlight (next_call w))).
Proof.
  intros He Hc. unfold _call. rewrite He. mstep. rewrite Hc. reflexivity.
Qed.

Lemma _call_disconnected e w :
  String.eqb e EmptyString = false -> connected w = false ->
  _call e w = (w, [], Normal Rejected).
Proof.
  intros He Hc. unfold _call. rewrite He. mstep. rewrite Hc. reflexivity.
Qed.

(** *** [_remove] *)

Lemma _remove_no_editor w :
  _hasEditor w = false -> _remove w = (w, [], Normal Undefined).
Proof. intros E. unfold _remove. mstep. rewrite E. reflexivity. Qed.

Lemma _remove_disconnected w :
  _hasEditor w = true -> connected w = false ->
  _remove w =
    (set_model ∅ (set_hasEditor false (clearInterval (_syncInterval w) w)),
     [], Normal (Promise Rejected)).
Proof.
  intros E C. unfold _remove, _reset, _stopSyncLoop. mstep. rewrite E.
  cbn [negb]. rewrite _call_disconnected; [reflexivity|reflexivity|].
  destruct w as [? ? [t|] ? ? ? ? ? ? ? ? ?]; exact C.
Qed.

Lemma _remove_connected w :
  _hasEditor w = true -> connected w = true ->
  _remove w =
    ((evaluate
        (set_model ∅ (set_hasEditor false (clearInterval (_syncInterval w) w)))).2,
     [Evaluate (next_call w) remove_expr],
     Normal (Promise (InFlight (next_call w)))).
Proof.
  intros E C. unfold _remove, _reset, _stopSyncLoop. mstep. rewrite E.
  cbn [negb]. rewrite _call_connected; [|reflexivity|].
  - destruct w as [? ? [t|] ? ? ? ? ? ? ? ? ?]; reflexivity.
  - destruct w as [? ? [t|] ? ? ? ? ? ? ? ? ?]; exact C.
Qed.

(** *** Failures of a remote call *)

Lemma remote_fault_disconnected result w :
  lostContext result = false -> connected w = false ->
  _whenRemoteCallFailed result w =
    (if _hasEditor w
     then set_model ∅ (set_hasEditor false
            (clearInterval (_syncInterval w) (set_cache_model None w)))
     else set_cache_model None w,
     [],
     Normal (if _hasEditor w then Promise Rejected else Undefined)).
Proof.
  intros L C. unfold _whenRemoteCallFailed. rewrite L. mstep.
  destruct (_hasEditor w) eqn:E.
  - rewrite _remove_disconnected; [reflexivity|exact E|exact C].
  - rewrite _remove_no_editor; [reflexivity|exact E].
Qed.

(** *** Setting up the editor that is already there *)

Lemma _update_overwrites_cache c r w :
  _hasEditor w = true ->
  _update (Some r) (set_cache_model c w) = _update (Some r) w.
Proof.
  intros E. rewrite !_update_eq. unfold update_body. mstep. world_simpl.
  rewrite E. reflexivity.
Qed.

Lemma _update_same_target r w :
  _hasEditor w = true ->
  _model w !! "selector" = Some (JStr (selector (models w r))) ->
  _model w !! "property" = Some (JStr (property (models w r))) ->
  (_update (Some r) w).1.2 =
    if connected w
    then [Evaluate (next_call w) (update_expr (models w r))]
    else [].
Proof.
  intros E Hs Hp. rewrite _update_eq. unfold update_body. mstep. world_simpl.
  rewrite E, Hs, Hp. unfold strict_eq. rewrite !String.eqb_refl. cbn [negb orb].
  destruct (connected w) eqn:C.
  - rewrite _call_connected; [|apply update_expr_not_empty|exact C].
    reflexivity.
  - rewrite _call_disconnected; [|apply update_expr_not_empty|exact C].
    unfold attach, fail_now. mstep.
    rewrite remote_fault_disconnected; [|reflexivity|exact C].
    reflexivity.
Qed.

(** Once a poll brought the selector and the property of the target [r]
    into the snapshot (whatever its value), [_setup] of [r] is [_update] of
    [r]: the two calls give the same state, the same effects and the same
    result.  The only evaluation the call issues is the [update]
    expression, and none at all without a connection, so no [remove] is
    sent to the page.  Before that poll the snapshot is empty and the test
    of [_setup] fails (see [setup_again_before_first_poll]). *)
Lemma setup_same_target_is_update (r : ModelRef) (w : World) :
  _hasEditor w = true ->
  _model w !! "selector" = Some (JStr (selector (models w r))) ->
  _model w !! "property" = Some (JStr (property (models w r))) ->
  _setup (Some r) w = _update (Some r) w
  /\ (_setup (Some r) w).1.2 =
       (if connected w
        then [Evaluate (next_call w) (update_expr (models w r))]
        else [])
  /\ remove_expr ∉ evaluations (_setup (Some r) w).1.2.
Proof.
  intros E Hs Hp.
  assert (Heq : _setup (Some r) w = _update (Some r) w).
  { rewrite _setup_eq. unfold setup_body. mstep. world_simpl.
    rewrite E, Hs, Hp. unfold loose_eq. rewrite !String.eqb_refl. cbn [andb].
    rewrite _update_overwrites_cache by exact E.
    destruct (_update (Some r) w) as [[w' t] c]. reflexivity. }
  split; [exact Heq|]. rewrite Heq, (_update_same_target r w E Hs Hp).
  split; [reflexivity|].
  destruct (connected w); cbn.
  - intros Hin. apply list_elem_of_singleton in Hin.
    symmetry in Hin. exact (update_expr_not_remove _ Hin).
  - apply not_elem_of_nil.
Qed.

(** *** The pattern of a lost context *)

Lemma append_cons c a b : String c a +:+ b = String c (a +:+ b).
Proof. reflexivity. Qed.

Lemma append_empty b : EmptyString +:+ b = b.
Proof. reflexivity. Qed.

Lemma prefix_spec p s :
  String.prefix p s = true <-> exists b, s = p +:+ b.
Proof.
  revert s. induction p as [|c p IH]; intros s.
  - destruct s; cbn; split; eauto.
  - destruct s as [|c' s]; cbn.
    + split; [discriminate|]. intros [b Hb]. discriminate.
    + destruct (Ascii.ascii_dec c c') as [->|Hne].
      * rewrite IH. split; intros [b Hb]; exists b;
          rewrite append_cons in *; congruence.
      * split; [discriminate|]. intros [b Hb].
        rewrite append_cons in Hb. congruence.
Qed.

Lemma includes_unfold p s :
  includes p s =
    if String.prefix p s then true
    else match s with
         | EmptyString => false
         | String _ s' => includes p s'
         end.
Proof. destruct s; reflexivity. Qed.

Lemma includes_spec p s :
  includes p s = true <-> exists a b, s = a +:+ p +:+ b.
Proof.
  split.
  - induction s as [|c s IH]; rewrite includes_unfold.
    + destruct (String.prefix p EmptyString) eqn:P; [|discriminate].
      intros _. apply prefix_spec in P as [b Hb]. exists EmptyString, b. exact Hb.
    + destruct (String.prefix p (String c s)) eqn:P.
      * intros _. apply prefix_spec in P as [b Hb]. exists EmptyString, b. exact Hb.
      * intros Hi. destruct (IH Hi) as (a & b & ->).
        exists (String c a), b. reflexivity.
  - intros (a & b & ->). induction a as [|c a IH]; rewrite includes_unfold.
    + rewrite append_empty.
      assert (P : String.prefix p (p +:+ b) = true)
        by (apply prefix_spec; eauto).
      rewrite P. reflexivity.
    + rewrite append_cons.
      destruct (String.prefix p (String c (a +:+ p +:+ b))); [reflexivity|].
      exact IH.
Qed.

Lemma lostContext_spec result :
  lostContext result = true <->
  exists r d a b, result = Some r /\ description r = Some d
                  /\ d = a +:+ "Cannot call method" +:+ b.
Proof.
  unfold lostContext. split.
  - destruct result as [r|]; [|discriminate].
    destruct (description r) as [d|] eqn:D; [|discriminate].
    intros Hl. apply andb_prop in Hl as [_ Hi].
    apply includes_spec in Hi as (a & b & ->). eauto 8.
  - intros (r & d & a & b & -> & -> & ->).
    apply andb_true_intro. split.
    + destruct a; reflexivity.
    + apply includes_spec. eauto.
Qed.

Lemma remote_fault_connected result w :
  lostContext result = false -> connected w = true ->
  _whenRemoteCallFailed result w =
    (if _hasEditor w
     then (evaluate (set_model ∅ (set_hasEditor false
            (clearInterval (_syncInterval w) (set_cache_model None w))))).2
     else set_cache_model None w,
     if _hasEditor w then [Evaluate (next_call w) remove_expr] else [],
     Normal (if _hasEditor w then Promise (InFlight (next_call w))
             else Undefined)).
Proof.
  intros L C. unfold _whenRemoteCallFailed. rewrite L. mstep.
  destruct (_hasEditor w) eqn:E.
  - rewrite _remove_connected; [reflexivity|exact E|exact C].
  - rewrite _remove_no_editor; [reflexivity|exact E].
Qed.

(** C5.  [_whenRemoteCallFailed] reads a failure as a lost context exactly
    when its diagnostic has a description that contains "Cannot call
    method", and then it is [_reconnect].  Any other failure, the one
    without a diagnostic included, clears the cached model and runs
    [_remove] in that state: the editor flag is down afterwards, the retry
    count is untouched, and the only effect is the [remove] expression when
    there was an editor and a connection (nothing is injected again). *)
Theorem remote_failure_classification (result : option RemoteObject)
    (w : World) :
  (lostContext result = true <->
     exists r d a b, result = Some r /\ description r = Some d
                     /\ d = a +:+ "Cannot call method" +:+ b)
  /\ lostContext None = false
  /\ (lostContext result = true ->
        _whenRemoteCallFailed result w = _reconnect w)
  /\ (lostContext result = false ->
        _whenRemoteCallFailed result w = _remove (set_cache_model None w)
        /\ _cache_model (_whenRemoteCallFailed result w).1.1 = None
        /\ _hasEditor (_whenRemoteCallFailed result w).1.1 = false
        /\ _retryCount (_whenRemoteCallFailed result w).1.1 = _retryCount w
        /\ (_whenRemoteCallFailed result w).1.2 =
             if _hasEditor w && connected w
             then [Evaluate (next_call w) remove_expr]
             else []).
Proof.
  split; [apply lostContext_spec|]. split; [reflexivity|]. split.
  - intros L. unfold _whenRemoteCallFailed. rewrite L. reflexivity.
  - intros L. split.
    + unfold _whenRemoteCallFailed. rewrite L. mstep.
      destruct (_remove (set_cache_model None w)) as [[w' t] c]. reflexivity.
    + destruct (connected w) eqn:C.
      * rewrite remote_fault_connected by assumption.
        destruct w as [? [] [] ? ? ? ? ? ? ? ? ?]; cbn; auto.
      * rewrite remote_fault_disconnected by assumption.
        destruct w as [? [] [] ? ? ? ? ? ? ? ? ?]; cbn; auto.
Qed.

(** C8.  Without an editor [_remove] changes nothing and evaluates
    nothing, and what it returns is [undefined]: the bare [return] of the
    source, not a promise that is already resolved. *)
Theorem remove_without_editor_returns_undefined (w : World) :
  _hasEditor w = false ->
  _remove w = (w, [], Normal Undefined) /\ Undefined <> Promise Resolved.
Proof.
  intros E. split; [exact (_remove_no_editor w E)|discriminate].
Qed.

(** *** Expressions that left and their handlers *)

Lemma find_attached id h x (l : list (nat * Handlers)) :
  List.find (fun e => Nat.eqb (fst e) id)
    (map (fun e => if Nat.eqb (fst e) id then (id, h) else e)
         (l ++ [(id, x)])) = Some (id, h).
Proof.
  induction l as [|[i y] l IH]; cbn.
  - rewrite Nat.eqb_refl. cbn. rewrite Nat.eqb_refl. reflexivity.
  - destruct (Nat.eqb i id) eqn:E; cbn.
    + rewrite Nat.eqb_refl. reflexivity.
    + rewrite E. exact IH.
Qed.

Lemma handlers_of_issued h w :
  handlers_of (next_call w) (issued h w) = Some h.
Proof.
  unfold handlers_of, issued, attach. mstep. world_simpl.
  rewrite find_attached. reflexivity.
Qed.

Lemma _setup_issues r w :
  _hasEditor w
    && (loose_eq (selector (models w r)) (_model w !! "selector")
        && loose_eq (property (models w r)) (_model w !! "property")) = false ->
  connected w = true ->
  _setup (Some r) w =
    (issued OnSetup (set_cache_model (Some (default r (_cache_model w))) w),
     [Evaluate (next_call w) (setup_expr (models w r))],
     Normal (Promise (InFlight (next_call w)))).
Proof.
  intros N C. rewrite _setup_eq. unfold setup_body. mstep. world_simpl.
  rewrite N. rewrite _call_connected; [|apply setup_expr_not_empty|exact C].
  destruct (_cache_model w); reflexivity.
Qed.

Lemma _setup_without_editor r w :
  _hasEditor w = false -> connected w = true ->
  _setup (Some r) w =
    (issued OnSetup (set_cache_model (Some (default r (_cache_model w))) w),
     [Evaluate (next_call w) (setup_expr (models w r))],
     Normal (Promise (InFlight (next_call w)))).
Proof. intros E. apply _setup_issues. rewrite E. reflexivity. Qed.

(** What line 98 does.  A [_setup] that does not turn into an update and
    whose expression leaves (the Inspector is connected) sends the [setup]
    expression of the given model, and leaves in the cache the model that
    was cached before, or the given one when none was.  What [onPostInit]
    sets up again after an injection is the cached model. *)
Lemma setup_caches_unless_cached (r : ModelRef) (w : World) :
  _hasEditor w
    && (loose_eq (selector (models w r)) (_model w !! "selector")
        && loose_eq (property (models w r)) (_model w !! "property")) = false ->
  connected w = true ->
  _cache_model (_setup (Some r) w).1.1 = Some (default r (_cache_model w))
  /\ (_setup (Some r) w).1.2 =
       [Evaluate (next_call w) (setup_expr (models w r))]
  /\ (forall c w', _cache_model w' = Some c -> connected w' = true ->
        (onPostInit w').1.2 =
          [Evaluate (next_call w') (setup_expr (models w' c))]
        /\ _cache_model (onPostInit w').1.1 = Some c
        /\ _retryCount (onPostInit w').1.1 = 5).
Proof.
  intros N C. rewrite (_setup_issues r w N C). split; [reflexivity|].
  split; [reflexivity|]. intros c w' Hc C'.
  destruct w' as [? ? [t|] ? ? ? ? ? ? ? ? ?]; cbn in Hc, C'; subst;
    unfold onPostInit, _reset, _stopSyncLoop; mstep; unfold clearInterval;
    world_simpl; (rewrite _setup_without_editor; [|reflexivity|reflexivity]);
    world_simpl; auto.
Qed.

(** *** Updating towards another target *)





(** *** A poll that does not answer a JSON text *)

Lemma malformed_throws v w :
  malformed v = true ->
  _whenGetRemoteModel v w = (w, [], Throw (malformed_error v)).
Proof.
  unfold malformed, malformed_error, model_text, _whenGetRemoteModel.
  destruct v as [m|]; [|reflexivity].
  destruct (ro_value m) as [[| | | |text| |]|]; try reflexivity.
  destruct (String.eqb text EmptyString); [reflexivity|]. cbn [orb].
  destruct (JSON_parse text); [discriminate|reflexivity].
Qed.

(** The tick itself always returns: what it may raise is raised later, by
    the handler of the answer. *)
Lemma _onSyncTick_returns w : (_onSyncTick w).2 = Normal tt.
Proof.
  unfold _onSyncTick. mstep. destruct (connected w) eqn:C.
  - rewrite _call_connected; [reflexivity|reflexivity|exact C].
  - rewrite _call_disconnected; [|reflexivity|exact C].
    unfold attach, fail_now. mstep.
    rewrite remote_fault_disconnected; [reflexivity|reflexivity|exact C].
Qed.

(** C9, as the code has it.  When the answer of [getModel] is missing, is
    not a string, is the empty string or is not JSON, [_whenGetRemoteModel]
    raises (a TypeError, or the SyntaxError of the parser) and changes
    nothing.  The Deferred does not catch what its handler raises: the
    answer of such a poll leaves the session as it was (the evaluation no
    longer awaited), and the exception leaves the driver without
    [_whenRemoteCallFailed] being run.  The tick that sent the poll raises
    nothing. *)
Theorem malformed_model_raises (v : option RemoteObject) (w : World)
    (id : nat) :
  malformed v = true ->
  _whenGetRemoteModel v w = (w, [], Throw (malformed_error v))
  /\ (handlers_of id w = Some OnSync ->
      step (Answer id (Some (mkResponse false v))) w
      = Some (answered id w, [Raise (malformed_error v)]))
  /\ (_onSyncTick w).2 = Normal tt.
Proof.
  intros Hm. split; [exact (malformed_throws v w Hm)|].
  split; [|apply _onSyncTick_returns].
  intros Hh. unfold step, react. rewrite Hh.
  unfold callback, on_resolve. mstep. cbn [wasThrown result].
  rewrite (malformed_throws v (answered id w) Hm). reflexivity.
Qed.

(** *** The retry count *)

Lemma bind_world {A B} (m : M A) (k : A -> M B) w :
  (bind m k w).1.1 =
    match (m w).2 with
    | Normal a => (k a (m w).1.1).1.1
    | Throw _ => (m w).1.1
    end.
Proof.
  unfold bind. destruct (m w) as [[w1 t1] [a|e]]; [|reflexivity].
  cbn. destruct (k a w1) as [[w2 t2] c]. reflexivity.
Qed.

Lemma bind_effects {A B} (m : M A) (k : A -> M B) w :
  (bind m k w).1.2 =
    (m w).1.2 ++ match (m w).2 with
                 | Normal a => (k a (m w).1.1).1.2
                 | Throw _ => []
                 end.
Proof.
  unfold bind. destruct (m w) as [[w1 t1] [a|e]].
  - cbn. destruct (k a w1) as [[w2 t2] c]. reflexivity.
  - cbn. rewrite app_nil_r. reflexivity.
Qed.

Lemma keeps_bind {A B} (m : M A) (k : A -> M B) :
  keeps_retryCount m -> (forall a, keeps_retryCount (k a)) ->
  keeps_retryCount (m ≫= k).
Proof.
  intros Hm Hk w. change (m ≫= k) with (bind m k). rewrite bind_world.
  destruct ((m w).2) as [a|e]; [rewrite Hk|]; apply Hm.
Qed.

Lemma keeps_ret {A} (a : A) : keeps_retryCount (mret a).
Proof. intros w. reflexivity. Qed.

Lemma keeps_throw {A} e : keeps_retryCount (@throw A e).
Proof. intros w. reflexivity. Qed.

Lemma keeps_get : keeps_retryCount get.
Proof. intros w. reflexivity. Qed.

Lemma keeps_emit e : keeps_retryCount (emit e).
Proof. intros w. reflexivity. Qed.

Lemma keeps_modify f :
  (forall w, _retryCount (f w) = _retryCount w) -> keeps_retryCount (modify f).
Proof. intros Hf w. apply Hf. Qed.

Ltac keeps :=
  repeat first
    [ solve [auto 2]
    | apply keeps_ret | apply keeps_throw | apply keeps_get | apply keeps_emit
    | apply keeps_modify; intros [? ? [?|] ? ? ? ? ? ? ? ? ?]; reflexivity
    | apply keeps_bind; [|intros ?]
    | progress cbv zeta
    | match goal with
      | |- keeps_retryCount (if ?c then _ else _) => destruct c
      | |- keeps_retryCount (match ?x with _ => _ end) => destruct x
      end ].

Lemma keeps_attach p h : keeps_retryCount (attach p h).
Proof. unfold attach. keeps. Qed.

Lemma keeps_call e : keeps_retryCount (_call e).
Proof. unfold _call. keeps. Qed.

Lemma keeps_startSyncLoop : keeps_retryCount _startSyncLoop.
Proof. intros w. reflexivity. Qed.

Lemma keeps_reset : keeps_retryCount _reset.
Proof. unfold _reset, _stopSyncLoop. keeps. Qed.

Lemma keeps_remove : keeps_retryCount _remove.
Proof.
  pose proof keeps_reset. pose proof keeps_call. unfold _remove. keeps.
Qed.

Lemma keeps_init ps : keeps_retryCount (_init ps).
Proof. pose proof keeps_call. unfold _init. keeps. Qed.

Lemma keeps_fail_now p : keeps_retryCount (fail_now p).
Proof.
  pose proof keeps_remove. unfold fail_now, _whenRemoteCallFailed.
  destruct p; cbn [lostContext]; keeps.
Qed.

Lemma keeps_setup_body upd m :
  (forall m', keeps_retryCount (upd m')) -> keeps_retryCount (setup_body upd m).
Proof.
  intros Hu. pose proof keeps_call. pose proof keeps_attach.
  pose proof keeps_fail_now. unfold setup_body. keeps.
Qed.

Lemma keeps_update_body stp m :
  (forall m', keeps_retryCount (stp m')) -> keeps_retryCount (update_body stp m).
Proof.
  intros Hs. pose proof keeps_call. pose proof keeps_attach.
  pose proof keeps_fail_now. pose proof keeps_remove.
  unfold update_body. keeps.
Qed.

Lemma keeps_setup m : keeps_retryCount (_setup m).
Proof.
  unfold _setup. apply keeps_setup_body. intros ?.
  apply keeps_update_body. intros ?. apply keeps_setup_body. intros ?.
  apply keeps_throw.
Qed.

Lemma keeps_update m : keeps_retryCount (_update m).
Proof. apply keeps_update_body, keeps_setup. Qed.

Lemma keeps_sync data : keeps_retryCount (sync data).
Proof. unfold sync. keeps. Qed.

Lemma keeps_whenGetRemoteModel v : keeps_retryCount (_whenGetRemoteModel v).
Proof. pose proof keeps_sync. unfold _whenGetRemoteModel. keeps. Qed.

Lemma keeps_onSyncTick : keeps_retryCount _onSyncTick.
Proof.
  pose proof keeps_call. pose proof keeps_attach. pose proof keeps_fail_now.
  unfold _onSyncTick. keeps.
Qed.

Lemma keeps_remote_fault result :
  lostContext result = false -> keeps_retryCount (_whenRemoteCallFailed result).
Proof.
  intros L. pose proof keeps_remove. unfold _whenRemoteCallFailed.
  rewrite L. keeps.
Qed.

Lemma bind_get {A} (k : World -> M A) w : (get ≫= k) w = k w w.
Proof.
  change (get ≫= k) with (bind get k). unfold bind, get.
  destruct (k w w) as [[w2 t2] c]. reflexivity.
Qed.

Lemma bind_modify {A} f (k : unit -> M A) w : (modify f ≫= k) w = k tt (f w).
Proof.
  change (modify f ≫= k) with (bind (modify f) k). unfold bind, modify.
  destruct (k tt (f w)) as [[w2 t2] c]. reflexivity.
Qed.

Lemma _init_effects ps w : exists t, (_init ps w).1.2 = TriggerInit :: t.
Proof.
  unfold _init. cbv zeta. rewrite bind_modify.
  match goal with
  | |- context [(emit TriggerInit ≫= ?k) ?w0] =>
      change ((emit TriggerInit ≫= k) w0) with (bind (emit TriggerInit) k w0)
  end.
  rewrite bind_effects. eexists. reflexivity.
Qed.

Lemma _reconnect_abandons w :
  _retryCount w = 0 -> _reconnect w = (w, [], Normal (Promise Rejected)).
Proof.
  intros Hz. unfold _reconnect. rewrite bind_get, Hz. reflexivity.
Qed.

Lemma _reconnect_attempts w :
  _retryCount w <> 0 ->
  _retryCount (_reconnect w).1.1 = _retryCount w - 1
  /\ exists t, (_reconnect w).1.2 = TriggerInit :: t.
Proof.
  intros Hz. unfold _reconnect. rewrite bind_get.
  apply Z.eqb_neq in Hz. rewrite Hz. rewrite bind_modify.
  match goal with
  | |- context [(?m ≫= ?k) ?w0] =>
      change ((m ≫= k) w0) with (bind m k w0);
      assert (K : keeps_retryCount (m ≫= k))
        by (pose proof keeps_init; pose proof keeps_attach; keeps)
  end.
  split.
  - etransitivity; [apply K|reflexivity].
  - rewrite bind_effects.
    destruct (_init_effects (_cache_dependencies w)
                (set_retryCount (_retryCount w - 1) w)) as [t ->].
    eexists. reflexivity.
Qed.

Lemma onPostInit_budget w :
  _retryCount (onPostInit w).1.1 = 5
  \/ _retryCount (onPostInit w).1.1 = _retryCount w.
Proof.
  unfold onPostInit.
  match goal with
  | |- context [(_reset ≫= ?k) w] =>
      change ((_reset ≫= k) w) with (bind _reset k w)
  end.
  rewrite bind_world.
  pose proof (keeps_reset w) as Hr.
  destruct ((_reset w).2) as [[]|e]; [|right; exact Hr].
  rewrite bind_get.
  match goal with
  | |- context [(?m ≫= ?k) ?w0] =>
      change ((m ≫= k) w0) with (bind m k w0)
  end.
  rewrite bind_world.
  destruct ((_setup (_cache_model (_reset w).1.1) (_reset w).1.1).2).
  - left. reflexivity.
  - right. rewrite keeps_setup. exact Hr.
Qed.

Lemma answered_retryCount id w : _retryCount (answered id w) = _retryCount w.
Proof. reflexivity. Qed.

(** An event that is neither a lost context nor the success of an
    injection leaves the retry count alone. *)
Lemma react_keeps ev w m :
  react ev w = Some m ->
  lost_failure ev w = false -> injection_success ev w = false ->
  keeps_retryCount m.
Proof.
  pose proof keeps_init. pose proof keeps_setup. pose proof keeps_update.
  pose proof keeps_remove. pose proof keeps_onSyncTick.
  pose proof keeps_whenGetRemoteModel. pose proof keeps_startSyncLoop.
  destruct ev as [ps|mo|mo| |tm|id resp|up|r a]; cbn [react];
    intros Hr Hl Hs.
  1-4, 7-8: injection Hr as <-; keeps.
  - destruct (bool_decide (tm ∈ timers w)); [|discriminate].
    injection Hr as <-. keeps.
  - unfold lost_failure, injection_success in Hl, Hs.
    destruct (handlers_of id w) as [h|]; [|discriminate].
    injection Hr as <-. apply keeps_bind; [keeps|intros _].
    destruct resp as [[thrown v]|]; [|apply keeps_throw].
    cbn [callback wasThrown result] in *.
    destruct thrown; cbn [negb andb] in *.
    + destruct h; cbn [on_reject]; keeps;
        apply keeps_remote_fault;
        (destruct (lostContext v); [discriminate|reflexivity]).
    + destruct h; cbn [on_resolve]; keeps. discriminate.
Qed.

Lemma react_lost ev w m :
  react ev w = Some m -> lost_failure ev w = true ->
  (_retryCount w = 0 ->
     exists id, m w = (answered id w, [], Normal tt))
  /\ (_retryCount w <> 0 ->
        _retryCount (m w).1.1 = _retryCount w - 1
        /\ exists t, (m w).1.2 = TriggerInit :: t).
Proof.
  intros Hr Hl. destruct ev as [| | | | |id [[thrown v]|]| |];
    try discriminate Hl.
  cbn [react lost_failure wasThrown result] in *.
  destruct (handlers_of id w) as [h|]; [|discriminate].
  injection Hr as <-. rewrite bind_modify.
  destruct thrown; [|discriminate]. cbn [andb] in Hl.
  destruct (lostContext v) eqn:L; [|discriminate].
  assert (Hm : forall w0, callback h (Some (mkResponse true v)) w0
                 = (_reconnect ≫= fun _ => mret tt) w0).
  { intros w0. destruct h; try discriminate Hl;
      cbn [callback wasThrown result on_reject];
      unfold _whenRemoteCallFailed; rewrite L; reflexivity. }
  change (on_reject h v (answered id w))
    with (callback h (Some (mkResponse true v)) (answered id w)).
  rewrite Hm.
  change ((_reconnect ≫= fun _ => mret tt) (answered id w))
    with (bind _reconnect (fun _ => mret tt) (answered id w)).
  split; intros Hz.
  - exists id. unfold bind. rewrite _reconnect_abandons by exact Hz.
    reflexivity.
  - destruct (_reconnect_attempts (answered id w) Hz) as [Hw [t Ht]].
    rewrite bind_world, bind_effects, Ht.
    split; [|eexists; reflexivity].
    destruct ((_reconnect (answered id w)).2); exact Hw.
Qed.

Lemma react_success ev w m :
  react ev w = Some m -> injection_success ev w = true ->
  _retryCount (m w).1.1 = 5 \/ _retryCount (m w).1.1 = _retryCount w.
Proof.
  intros Hr Hs. destruct ev as [| | | | |id [[thrown v]|]| |];
    try discriminate Hs.
  cbn [react injection_success wasThrown result] in *.
  destruct (handlers_of id w) as [h|]; [|discriminate].
  injection Hr as <-. rewrite bind_modify.
  destruct thrown; [discriminate|]. destruct h; try discriminate Hs.
  cbn [callback wasThrown result on_resolve].
  apply (onPostInit_budget (answered id w)).
Qed.

Lemma step_react ev w w' t :
  step ev w = Some (w', t) ->
  exists m, react ev w = Some m /\ w' = (m w).1.1
            /\ t = (m w).1.2 ++ match (m w).2 with
                                | Normal _ => []
                                | Throw e => [Raise e]
                                end.
Proof.
  unfold step. destruct (react ev w) as [m|]; [|discriminate].
  destruct (m w) as [[w1 t1] [a|e]] eqn:E; intros [= <- <-];
    exists m; rewrite E; (split; [reflexivity|]); (split; [reflexivity|]).
  - cbn. rewrite app_nil_r. reflexivity.
  - reflexivity.
Qed.

Lemma step_budget ev w w' t :
  step ev w = Some (w', t) ->
  (lost_failure ev w = true
   /\ ((_retryCount w = 0 /\ _retryCount w' = 0 /\ t = [])
       \/ (_retryCount w <> 0 /\ _retryCount w' = _retryCount w - 1
           /\ TriggerInit ∈ t)))
  \/ (lost_failure ev w = false /\ injection_success ev w = true
      /\ (_retryCount w' = 5 \/ _retryCount w' = _retryCount w))
  \/ (lost_failure ev w = false /\ injection_success ev w = false
      /\ _retryCount w' = _retryCount w).
Proof.
  intros Hs. apply step_react in Hs as (m & Hr & -> & ->).
  destruct (lost_failure ev w) eqn:L.
  - left. split; [reflexivity|].
    destruct (react_lost ev w m Hr L) as [Hz Hn].
    destruct (Z.eq_dec (_retryCount w) 0) as [Z0|Z0].
    + left. destruct (Hz Z0) as [id ->].
      split; [exact Z0|]. split; [exact Z0|]. reflexivity.
    + right. destruct (Hn Z0) as [Hw [t ->]].
      split; [exact Z0|]. split; [exact Hw|]. cbn. apply list_elem_of_here.
  - right. destruct (injection_success ev w) eqn:S.
    + left. split; [reflexivity|]. split; [reflexivity|].
      exact (react_success ev w m Hr S).
    + right. split; [reflexivity|]. split; [reflexivity|].
      exact (react_keeps ev w m Hr L S w).
Qed.

Lemma run_budget evs : forall w w' t,
  0 <= _retryCount w -> run evs w = Some (w', t) ->
  count_along injection_success evs w = 0%nat ->
  _retryCount w' =
    Z.max 0 (_retryCount w - Z.of_nat (count_along lost_failure evs w)).
Proof.
  induction evs as [|ev evs IH]; intros w w' t Hp Hr Hc.
  - injection Hr as <- <-. cbn. lia.
  - cbn [run count_along] in *.
    destruct (step ev w) as [[w1 t1]|] eqn:Hs; [|discriminate].
    destruct (run evs w1) as [[w2 t2]|] eqn:Hr1; [|discriminate].
    injection Hr as <- <-.
    destruct (injection_success ev w) eqn:S; [discriminate|].
    cbn in Hc.
    destruct (step_budget ev w w1 t1 Hs)
      as [[L [(Z0 & Z1 & _)|(Z0 & Z1 & _)]]|[(_ & S' & _)|(L & _ & Z1)]];
      try congruence; rewrite L;
      (rewrite (IH w1 w2 t2); [lia|lia|exact Hr1|exact Hc]).
Qed.

(** C4.  The retry count is 5 in a new session.  An event changes it in
    two ways only: a failure that [_whenRemoteCallFailed] reads as a lost
    context takes one off while the count is not 0, announcing the
    injection it attempts, and the answer that tells the success of the
    injection of a reconnect sets it to 5.  At 0 a lost context has no
    effect at all: nothing is injected and the count stays 0.  So in a run
    that starts from 5 and meets five lost contexts and no successful
    injection the count ends at 0, and the lost context that comes next is
    given up. *)
Theorem reconnect_budget :
  (forall c ms, _retryCount (initial c ms) = 5)
  /\ (forall ev w w' t, step ev w = Some (w', t) ->
        _retryCount w' = _retryCount w
        \/ (lost_failure ev w = true /\ _retryCount w <> 0
            /\ _retryCount w' = _retryCount w - 1)
        \/ (injection_success ev w = true /\ _retryCount w' = 5))
  /\ (forall ev w w' t, step ev w = Some (w', t) ->
        lost_failure ev w = true ->
        (_retryCount w <> 0 ->
           _retryCount w' = _retryCount w - 1 /\ TriggerInit ∈ t)
        /\ (_retryCount w = 0 -> _retryCount w' = 0 /\ t = []))
  /\ (forall w, _retryCount w = 0 ->
        _reconnect w = (w, [], Normal (Promise Rejected)))
  /\ (forall evs w w' t, _retryCount w = 5 -> run evs w = Some (w', t) ->
        count_along injection_success evs w = 0%nat ->
        count_along lost_failure evs w = 5%nat ->
        _retryCount w' = 0
        /\ forall ev w'' t', step ev w' = Some (w'', t') ->
             lost_failure ev w' = true -> _retryCount w'' = 0 /\ t' = []).
Proof.
  split; [reflexivity|]. split; [|split; [|split; [exact _reconnect_abandons|]]].
  - intros ev w w' t Hs.
    destruct (step_budget ev w w' t Hs)
      as [[L [(Z0 & Z1 & _)|(Z0 & Z1 & _)]]|[(_ & S & [Z1|Z1])|(_ & _ & Z1)]];
      auto.
    left. lia.
  - intros ev w w' t Hs L.
    destruct (step_budget ev w w' t Hs)
      as [[_ [(Z0 & Z1 & T)|(Z0 & Z1 & T)]]|[(L' & _)|(L' & _)]];
      try congruence; split; intros; try contradiction; auto.
  - intros evs w w' t Z5 Hr Hc Hl.
    assert (Z0 : _retryCount w' = 0).
    { rewrite (run_budget evs w w' t);
        [rewrite Z5, Hl; reflexivity|lia|assumption|assumption]. }
    split; [exact Z0|]. intros ev w'' t' Hs L.
    destruct (step_budget ev w' w'' t' Hs)
      as [[_ [(_ & Z1 & T)|(Zn & _)]]|[(L' & _)|(L' & _)]];
      try congruence; auto.
Qed.

(** *** The merge of a poll into the snapshot *)

Lemma sync_eq data w :
  sync data w =
    (set_model (foldl sync_key (_model w, false) (for_in data)).1 w,
     if (foldl sync_key (_model w, false) (for_in data)).2
     then [TriggerModelChange (foldl sync_key (_model w, false) (for_in data)).1]
     else [],
     Normal tt).
Proof.
  unfold sync. rewrite bind_get. cbv zeta. rewrite bind_modify.
  destruct (foldl sync_key (_model w, false) (for_in data)).2; reflexivity.
Qed.

Lemma sync_key_other acc kv k :
  kv.1 <> k -> (sync_key acc kv).1 !! k = acc.1 !! k.
Proof.
  intros Hne. unfold sync_key.
  destruct (negb (truthy (acc.1 !! kv.1))
            || negb (isEqual_prop (acc.1 !! kv.1) kv.2)); [|reflexivity].
  cbn. apply lookup_insert_ne. exact Hne.
Qed.

Lemma sync_key_keeps acc kv k :
  is_Some (acc.1 !! k) -> is_Some ((sync_key acc kv).1 !! k).
Proof.
  intros Hs. unfold sync_key.
  destruct (negb (truthy (acc.1 !! kv.1))
            || negb (isEqual_prop (acc.1 !! kv.1) kv.2)); [|exact Hs].
  cbn. destruct (decide (kv.1 = k)) as [->|Hne].
  - rewrite lookup_insert_eq. eauto.
  - rewrite lookup_insert_ne by exact Hne. exact Hs.
Qed.

Lemma sync_key_flag acc kv : acc.2 = true -> (sync_key acc kv).2 = true.
Proof.
  intros Hf. unfold sync_key.
  destruct (negb (truthy (acc.1 !! kv.1))
            || negb (isEqual_prop (acc.1 !! kv.1) kv.2)); [reflexivity|exact Hf].
Qed.

Lemma merge_other l : forall acc k,
  k ∉ l.*1 -> (foldl sync_key acc l).1 !! k = acc.1 !! k.
Proof.
  induction l as [|kv l IH]; intros acc k Hk; [reflexivity|].
  cbn [foldl]. rewrite fmap_cons in Hk. apply not_elem_of_cons in Hk as [Hne Hk].
  rewrite IH by exact Hk. apply sync_key_other. congruence.
Qed.

Lemma merge_keeps l : forall acc k,
  is_Some (acc.1 !! k) -> is_Some ((foldl sync_key acc l).1 !! k).
Proof.
  induction l as [|kv l IH]; intros acc k Hs; [exact Hs|].
  cbn [foldl]. apply IH, sync_key_keeps, Hs.
Qed.

Lemma merge_flag l : forall acc,
  acc.2 = true -> (foldl sync_key acc l).2 = true.
Proof.
  induction l as [|kv l IH]; intros acc Hf; [exact Hf|].
  cbn [foldl]. apply IH, sync_key_flag, Hf.
Qed.

(** A value that reads as false is deeply equal to itself only. *)
Lemma deep_equal_falsy a b :
  truthy (Some a) = false -> deep_equal a b = true -> b = a.
Proof.
  destruct a as [|x|x| |x|x|x], b as [|y|y| |y|y|y]; cbn;
    try discriminate; intros Ht He.
  - reflexivity.
  - subst x. destruct y; [discriminate|reflexivity].
  - apply negb_false_iff, Z.eqb_eq in Ht. apply Z.eqb_eq in He. congruence.
  - reflexivity.
  - apply negb_false_iff, String.eqb_eq in Ht. apply String.eqb_eq in He.
    congruence.
Qed.

Lemma sync_key_equal acc kv :
  falsy_exact ->
  isEqual_prop (acc.1 !! kv.1) kv.2 = true -> (sync_key acc kv).1 = acc.1.
Proof.
  intros Hf. unfold sync_key, isEqual_prop.
  destruct (acc.1 !! kv.1) as [x|] eqn:Hx; [|discriminate].
  intros He. rewrite He.
  destruct (truthy (Some x)) eqn:Ht; [reflexivity|].
  cbn. apply insert_id. rewrite Hx. f_equal. symmetry.
  exact (Hf x kv.2 Ht He).
Qed.

(** A poll whose values are deeply equal to the entries of the snapshot
    leaves the snapshot as it is. *)
Lemma merge_equal l : falsy_exact -> forall acc,
  (forall kv, kv ∈ l -> isEqual_prop (acc.1 !! kv.1) kv.2 = true) ->
  (foldl sync_key acc l).1 = acc.1.
Proof.
  intros Hf. induction l as [|kv l IH]; intros acc He; [reflexivity|].
  cbn [foldl].
  assert (Hk : (sync_key acc kv).1 = acc.1)
    by (apply sync_key_equal; [exact Hf|apply He, list_elem_of_here]).
  rewrite IH; [exact Hk|]. intros kv' Hin. rewrite Hk.
  apply He. apply list_elem_of_further, Hin.
Qed.

(** When these entries moreover read as true, nothing is marked changed. *)
Lemma merge_quiet l : forall acc,
  (forall kv, kv ∈ l ->
     truthy (acc.1 !! kv.1) = true
     /\ isEqual_prop (acc.1 !! kv.1) kv.2 = true) ->
  foldl sync_key acc l = acc.
Proof.
  induction l as [|kv l IH]; intros acc He; [reflexivity|].
  cbn [foldl].
  assert (Hk : sync_key acc kv = acc).
  { destruct (He kv (list_elem_of_here _ _)) as [Ht Hq].
    unfold sync_key. rewrite Ht, Hq. reflexivity. }
  rewrite Hk. apply IH. intros kv' Hin.
  apply He, list_elem_of_further, Hin.
Qed.

(** The poll is marked changed exactly when the entry of one of its keys
    is missing or reads as false, or is not equal to the polled value for
    [_.isEqual]. *)
Lemma merge_flag_exact l : forall m b,
  (foldl sync_key (m, b) l).2 =
    b || existsb (fun kv => negb (truthy (m !! kv.1))
                            || negb (isEqual_prop (m !! kv.1) kv.2)) l.
Proof.
  induction l as [|kv l IH]; intros m b.
  - cbn. rewrite orb_false_r. reflexivity.
  - cbn [foldl existsb]. unfold sync_key at 2. cbn [fst snd].
    destruct (negb (truthy (m !! kv.1))
              || negb (isEqual_prop (m !! kv.1) kv.2)).
    + rewrite merge_flag by reflexivity. rewrite orb_true_r. reflexivity.
    + rewrite IH. reflexivity.
Qed.

(** The snapshot after a poll: the keys of the poll are there, the other
    keys are as before, and no key is lost. *)
Lemma sync_keeps_other_keys data w k :
  k ∉ (for_in data).*1 ->
  _model (sync data w).1.1 !! k = _model w !! k.
Proof.
  intros Hk. rewrite sync_eq. cbn [fst snd _model set_model].
  rewrite merge_other by exact Hk. reflexivity.
Qed.

Lemma sync_never_removes data w k :
  is_Some (_model w !! k) -> is_Some (_model (sync data w).1.1 !! k).
Proof.
  intros Hs. rewrite sync_eq. cbn [fst snd _model set_model].
  apply merge_keeps. exact Hs.
Qed.

Lemma sync_carries_snapshot data w :
  (sync data w).1.2 = []
  \/ (sync data w).1.2 = [TriggerModelChange (_model (sync data w).1.1)].
Proof.
  rewrite sync_eq. cbn [fst snd _model set_model].
  destruct (foldl sync_key (_model w, false) (for_in data)).2; auto.
Qed.

Lemma sync_notifies_exactly data w :
  (sync data w).1.2 =
    if existsb (fun kv => negb (truthy (_model w !! kv.1))
                          || negb (isEqual_prop (_model w !! kv.1) kv.2))
         (for_in data)
    then [TriggerModelChange (_model (sync data w).1.1)]
    else [].
Proof.
  rewrite sync_eq. cbn [fst snd _model set_model].
  rewrite merge_flag_exact. reflexivity.
Qed.

(** A key that is new, or whose value differs, is notified. *)
Lemma sync_notifies_change data w kv :
  kv ∈ for_in data ->
  isEqual_prop (_model w !! kv.1) kv.2 = false ->
  (sync data w).1.2 = [TriggerModelChange (_model (sync data w).1.1)].
Proof.
  intros Hin Hq. rewrite sync_notifies_exactly.
  replace (existsb _ (for_in data)) with true; [reflexivity|].
  symmetry. apply existsb_exists. exists kv.
  split; [apply list_elem_of_In, Hin|]. rewrite Hq. apply orb_true_r.
Qed.

(** An entry that reads as false is notified again by every poll that
    brings it, changed or not. *)
Lemma sync_notifies_falsy_entry data w kv :
  kv ∈ for_in data ->
  truthy (_model w !! kv.1) = false ->
  (sync data w).1.2 = [TriggerModelChange (_model (sync data w).1.1)].
Proof.
  intros Hin Hf. rewrite sync_notifies_exactly.
  replace (existsb _ (for_in data)) with true; [reflexivity|].
  symmetry. apply existsb_exists. exists kv.
  split; [apply list_elem_of_In, Hin|]. rewrite Hf. reflexivity.
Qed.

Lemma sync_equal_truthy_is_silent data w :
  (forall kv, kv ∈ for_in data ->
     truthy (_model w !! kv.1) = true
     /\ isEqual_prop (_model w !! kv.1) kv.2 = true) ->
  sync data w = (w, [], Normal tt).
Proof.
  intros He. rewrite sync_eq.
  rewrite (merge_quiet _ (_model w, false)) by exact He.
  destruct w; reflexivity.
Qed.

Lemma sync_equal_keeps_snapshot data w :
  falsy_exact ->
  (forall kv, kv ∈ for_in data ->
     isEqual_prop (_model w !! kv.1) kv.2 = true) ->
  _model (sync data w).1.1 = _model w.
Proof.
  intros Hf He. rewrite sync_eq. cbn [fst snd _model set_model].
  apply (merge_equal _ Hf (_model w, false)). exact He.
Qed.

(** *** The restore step without a cached model *)

Lemma _setup_undefined w :
  _setup None w = (w, [], Throw TypeError).
Proof.
  rewrite _setup_eq. unfold setup_body. mstep.
  destruct w as [? ? ? ? [c|] ? ? ? ? ? ? ?]; reflexivity.
Qed.

(** With nothing in the cache [onPostInit] raises before it restores the
    retry count. *)
Lemma onPostInit_without_model w :
  _cache_model w = None ->
  (onPostInit w).2 = Throw TypeError
  /\ (onPostInit w).1.2 = []
  /\ _retryCount (onPostInit w).1.1 = _retryCount w.
Proof.
  intros Hc.
  destruct w as [? ? [t|] ? ? ? ? ? ? ? ? ?]; cbn in Hc; subst;
    unfold onPostInit, _reset, _stopSyncLoop; mstep; unfold clearInterval;
    world_simpl; rewrite _setup_undefined; auto.
Qed.

(** *** More on the merge of a poll *)

Lemma _whenGetRemoteModel_parsed v text data w :
  model_text v = Some text -> String.eqb text EmptyString = false ->
  JSON_parse text = Some data ->
  _whenGetRemoteModel v w = sync data w.
Proof.
  unfold model_text, _whenGetRemoteModel. intros Hv He Hp.
  destruct v as [m|]; [|discriminate].
  destruct (ro_value m) as [[| | | |x| |]|]; try discriminate.
  injection Hv as ->. rewrite He, Hp. reflexivity.
Qed.

(** A poll only touches the snapshot: it never removes a key, it leaves the
    keys it does not mention as they are, and it returns normally with at
    most one notification, which carries the merged snapshot. *)
Theorem poll_only_adds_or_overwrites v text data w :
  model_text v = Some text -> String.eqb text EmptyString = false ->
  JSON_parse text = Some data ->
  (_whenGetRemoteModel v w).1.1
    = set_model (_model (_whenGetRemoteModel v w).1.1) w
  /\ (_whenGetRemoteModel v w).2 = Normal tt
  /\ (forall k, is_Some (_model w !! k) ->
                is_Some (_model (_whenGetRemoteModel v w).1.1 !! k))
  /\ (forall k, k ∉ (for_in data).*1 ->
                _model (_whenGetRemoteModel v w).1.1 !! k = _model w !! k)
  /\ ((_whenGetRemoteModel v w).1.2 = []
      \/ (_whenGetRemoteModel v w).1.2
         = [TriggerModelChange (_model (_whenGetRemoteModel v w).1.1)]).
Proof.
  intros Hv He Hp. rewrite (_whenGetRemoteModel_parsed v text data w Hv He Hp).
  split; [rewrite sync_eq; reflexivity|].
  split; [rewrite sync_eq; reflexivity|].
  split; [intros k; apply sync_never_removes|].
  split; [intros k; apply sync_keeps_other_keys|].
  apply sync_carries_snapshot.
Qed.

(** [modelChange] is notified exactly when the entry of some polled key is
    missing, reads as false, or is not equal to the polled value for
    [_.isEqual], whatever that function answers. *)
Theorem poll_notifies_exactly v text data w :
  model_text v = Some text -> String.eqb text EmptyString = false ->
  JSON_parse text = Some data ->
  (_whenGetRemoteModel v w).1.2 =
    if existsb (fun kv => negb (truthy (_model w !! kv.1))
                          || negb (isEqual_prop (_model w !! kv.1) kv.2))
         (for_in data)
    then [TriggerModelChange (_model (_whenGetRemoteModel v w).1.1)]
    else [].
Proof.
  intros Hv He Hp. rewrite (_whenGetRemoteModel_parsed v text data w Hv He Hp).
  apply sync_notifies_exactly.
Qed.

Lemma sync_key_polled acc kv :
  (sync_key acc kv).1 !! kv.1 = Some kv.2
  \/ ((sync_key acc kv).1 = acc.1
      /\ truthy (acc.1 !! kv.1) = true
      /\ isEqual_prop (acc.1 !! kv.1) kv.2 = true).
Proof.
  unfold sync_key.
  destruct (truthy (acc.1 !! kv.1)); cbn [negb orb].
  - destruct (isEqual_prop (acc.1 !! kv.1) kv.2); cbn [negb].
    + right. auto.
    + left. cbn. apply lookup_insert_eq.
  - left. cbn. apply lookup_insert_eq.
Qed.

Lemma merge_polled l : forall acc kv,
  NoDup l.*1 -> kv ∈ l ->
  (foldl sync_key acc l).1 !! kv.1 = Some kv.2
  \/ ((foldl sync_key acc l).1 !! kv.1 = acc.1 !! kv.1
      /\ truthy (acc.1 !! kv.1) = true
      /\ isEqual_prop (acc.1 !! kv.1) kv.2 = true).
Proof.
  induction l as [|kv0 l IH]; intros acc kv Hnd Hin.
  - apply elem_of_nil in Hin. contradiction.
  - cbn [foldl]. rewrite fmap_cons in Hnd.
    apply NoDup_cons in Hnd as [Hfresh Hnd].
    apply elem_of_cons in Hin as [->|Hin].
    + rewrite merge_other by exact Hfresh.
      destruct (sync_key_polled acc kv0) as [Hs|(Hs & Ht & Hq)].
      * left. exact Hs.
      * right. rewrite Hs. auto.
    + assert (Hne : kv0.1 <> kv.1).
      { intros Heq. apply Hfresh. rewrite Heq.
        apply list_elem_of_fmap. exists kv. auto. }
      destruct (IH (sync_key acc kv0) kv Hnd Hin) as [Hs|Hs].
      * left. exact Hs.
      * right. rewrite (sync_key_other acc kv0 kv.1 Hne) in Hs. exact Hs.
Qed.

(** After a poll whose keys are distinct, each polled key holds the polled
    value, unless its entry read as true and was deeply equal to it: then
    the entry is kept. *)
Theorem poll_stores_polled_values v text data w k x :
  model_text v = Some text -> String.eqb text EmptyString = false ->
  JSON_parse text = Some data ->
  NoDup (for_in data).*1 -> (k, x) ∈ for_in data ->
  _model (_whenGetRemoteModel v w).1.1 !! k = Some x
  \/ (_model (_whenGetRemoteModel v w).1.1 !! k = _model w !! k
      /\ truthy (_model w !! k) = true
      /\ isEqual_prop (_model w !! k) x = true).
Proof.
  intros Hv He Hp Hnd Hin.
  rewrite (_whenGetRemoteModel_parsed v text data w Hv He Hp), sync_eq.
  cbn [fst snd _model set_model].
  exact (merge_polled (for_in data) (_model w, false) (k, x) Hnd Hin).
Qed.

Lemma merge_fixed l : forall acc,
  (forall kv, kv ∈ l ->
     acc.1 !! kv.1 = Some kv.2
     \/ (truthy (acc.1 !! kv.1) = true
         /\ isEqual_prop (acc.1 !! kv.1) kv.2 = true)) ->
  (foldl sync_key acc l).1 = acc.1.
Proof.
  induction l as [|kv l IH]; intros acc Hf; [reflexivity|].
  cbn [foldl].
  assert (Hk : (sync_key acc kv).1 = acc.1).
  { unfold sync_key.
    destruct (negb (truthy (acc.1 !! kv.1))
              || negb (isEqual_prop (acc.1 !! kv.1) kv.2)) eqn:Hc;
      [|reflexivity].
    cbn. destruct (Hf kv (list_elem_of_here _ _)) as [Hs|[Ht Hq]].
    - apply insert_id, Hs.
    - rewrite Ht, Hq in Hc. discriminate. }
  rewrite IH; [exact Hk|]. intros kv' Hin. rewrite Hk.
  apply Hf, list_elem_of_further, Hin.
Qed.

(** The same answer polled twice: the second poll leaves the snapshot as
    the first one made it. *)
Theorem poll_twice_same_snapshot v text data w :
  model_text v = Some text -> String.eqb text EmptyString = false ->
  JSON_parse text = Some data ->
  NoDup (for_in data).*1 ->
  _model (_whenGetRemoteModel v (_whenGetRemoteModel v w).1.1).1.1
  = _model (_whenGetRemoteModel v w).1.1.
Proof.
  intros Hv He Hp Hnd.
  rewrite !(_whenGetRemoteModel_parsed v text data _ Hv He Hp).
  rewrite (sync_eq data (sync data w).1.1). cbn [fst snd _model set_model].
  apply (merge_fixed _ (_model (sync data w).1.1, false)).
  intros kv Hin. cbn [fst]. rewrite sync_eq. cbn [fst snd _model set_model].
  destruct (merge_polled (for_in data) (_model w, false) kv Hnd Hin)
    as [Hs|(Hs & Ht & Hq)].
  - left. exact Hs.
  - right. rewrite Hs. auto.
Qed.

(** *** Removing twice, and calls without a model *)

Lemma _remove_has_no_editor w : _hasEditor (_remove w).1.1 = false.
Proof.
  destruct (_hasEditor w) eqn:E.
  - destruct (connected w) eqn:C.
    + rewrite _remove_connected by assumption.
      destruct w as [? ? [t|] ? ? ? ? ? ? ? ? ?]; reflexivity.
    + rewrite _remove_disconnected by assumption.
      destruct w as [? ? [t|] ? ? ? ? ? ? ? ? ?]; reflexivity.
  - rewrite _remove_no_editor by exact E. exact E.
Qed.

(** [_remove] with an editor empties the snapshot, puts the flag down and
    stops the timer of [_syncInterval]; it keeps the cache and the retry
    count, and never raises.  A second [_remove] then does nothing. *)
Theorem remove_resets_and_is_idempotent (w : World) :
  _hasEditor (_remove w).1.1 = false
  /\ (_hasEditor w = true -> _model (_remove w).1.1 = ∅)
  /\ (forall id, _hasEditor w = true -> _syncInterval w = Some id ->
                 id ∉ timers (_remove w).1.1)
  /\ _cache_model (_remove w).1.1 = _cache_model w
  /\ _retryCount (_remove w).1.1 = _retryCount w
  /\ (exists r, (_remove w).2 = Normal r)
  /\ _remove (_remove w).1.1 = ((_remove w).1.1, [], Normal Undefined).
Proof.
  split; [apply _remove_has_no_editor|].
  split; [|split; [|split; [|split; [|split]]]].
  - intros E. destruct (connected w) eqn:C.
    + rewrite _remove_connected by assumption.
      destruct w as [? ? [t|] ? ? ? ? ? ? ? ? ?]; reflexivity.
    + rewrite _remove_disconnected by assumption.
      destruct w as [? ? [t|] ? ? ? ? ? ? ? ? ?]; reflexivity.
  - intros id E Hi. destruct (connected w) eqn:C.
    + rewrite _remove_connected by assumption.
      destruct w as [? ? [t|] ? ? ? ? ? ? ? ? ?]; cbn in *; [|discriminate].
      injection Hi as ->. intros Hin. apply list_elem_of_filter in Hin as [Hne _].
      contradiction.
    + rewrite _remove_disconnected by assumption.
      destruct w as [? ? [t|] ? ? ? ? ? ? ? ? ?]; cbn in *; [|discriminate].
      injection Hi as ->. intros Hin. apply list_elem_of_filter in Hin as [Hne _].
      contradiction.
  - destruct (_hasEditor w) eqn:E; [destruct (connected w) eqn:C|].
    + rewrite _remove_connected by assumption.
      destruct w as [? ? [t|] ? ? ? ? ? ? ? ? ?]; reflexivity.
    + rewrite _remove_disconnected by assumption.
      destruct w as [? ? [t|] ? ? ? ? ? ? ? ? ?]; reflexivity.
    + rewrite _remove_no_editor by exact E. reflexivity.
  - apply keeps_remove.
  - destruct (_hasEditor w) eqn:E; [destruct (connected w) eqn:C|].
    + rewrite _remove_connected by assumption. eauto.
    + rewrite _remove_disconnected by assumption. eauto.
    + rewrite _remove_no_editor by exact E. eauto.
  - apply _remove_no_editor, _remove_has_no_editor.
Qed.

(** [_setup] and [_update] called without a model raise a TypeError; they
    send nothing and leave the session, its cache included, as it was. *)
Theorem missing_model_raises (w : World) :
  _setup None w = (w, [], Throw TypeError)
  /\ _update None w = (w, [], Throw TypeError)
  /\ step (CallSetup None) w = Some (w, [Raise TypeError])
  /\ step (CallUpdate None) w = Some (w, [Raise TypeError]).
Proof.
  assert (Hs : _setup None w = (w, [], Throw TypeError))
    by apply _setup_undefined.
  assert (Hu : _update None w = (w, [], Throw TypeError)) by reflexivity.
  split; [exact Hs|]. split; [exact Hu|]. split.
  - unfold step, react. mstep. rewrite Hs. reflexivity.
  - unfold step, react. mstep. rewrite Hu. reflexivity.
Qed.

(** *** Calls made while the Inspector is disconnected *)

Lemma update_body_offline stp r w :
  _hasEditor w = true -> connected w = false ->
  (update_body stp (Some r) w).1.2 = []
  /\ _hasEditor (update_body stp (Some r) w).1.1 = false
  /\ (update_body stp (Some r) w).2 = Normal (Promise Rejected).
Proof.
  intros E C. unfold update_body. mstep. world_simpl. rewrite E. cbn [negb].
  destruct (negb (strict_eq (selector (models w r)) (_model w !! "selector"))
            || negb (strict_eq (property (models w r)) (_model w !! "property"))).
  - rewrite _remove_disconnected; [|exact E|exact C].
    destruct w as [? ? [t|] ? ? ? ? ? ? ? ? ?]; cbn; auto.
  - rewrite _call_disconnected; [|apply update_expr_not_empty|exact C].
    unfold attach, fail_now. mstep.
    rewrite remote_fault_disconnected; [|reflexivity|exact C].
    world_simpl. rewrite E.
    destruct w as [? ? [t|] ? ? ? ? ? ? ? ? ?]; cbn; auto.
Qed.

Lemma _setup_offline r w :
  connected w = false ->
  (_setup (Some r) w).1.2 = []
  /\ _hasEditor (_setup (Some r) w).1.1 = false
  /\ (_setup (Some r) w).2 = Normal (Promise Rejected).
Proof.
  intros C. rewrite _setup_eq. unfold setup_body. mstep. world_simpl.
  destruct (_hasEditor w
            && (loose_eq (selector (models w r)) (_model w !! "selector")
                && loose_eq (property (models w r)) (_model w !! "property")))
    eqn:Hc.
  - apply andb_prop in Hc as [E _].
    destruct (update_body_offline _setup r
                (set_cache_model
                   match _cache_model w with
                   | Some c => Some c
                   | None => Some r
                   end w) E C) as (A & B & D).
    rewrite <- _update_eq in A, B, D.
    destruct (_update (Some r) _) as [[w' t] c]. cbn in *. subst. auto.
  - rewrite _call_disconnected; [|apply setup_expr_not_empty|exact C].
    unfold attach, fail_now. mstep.
    rewrite remote_fault_disconnected; [|reflexivity|exact C].
    world_simpl.
    destruct w as [? [] [t|] ? ? ? ? ? ? ? ? ?]; cbn; auto.
Qed.

(** Without a connection [_setup] and [_update] send nothing, return a
    rejected promise and leave the session without an editor, whatever the
    model and whatever the session was. *)
Theorem offline_setup_and_update_tear_down (r : ModelRef) (w : World) :
  connected w = false ->
  ((_setup (Some r) w).1.2 = []
   /\ _hasEditor (_setup (Some r) w).1.1 = false
   /\ (_setup (Some r) w).2 = Normal (Promise Rejected))
  /\ ((_update (Some r) w).1.2 = []
      /\ _hasEditor (_update (Some r) w).1.1 = false
      /\ (_update (Some r) w).2 = Normal (Promise Rejected)).
Proof.
  intros C. split; [exact (_setup_offline r w C)|].
  destruct (_hasEditor w) eqn:E.
  - rewrite _update_eq. exact (update_body_offline _setup r w E C).
  - replace (_update (Some r) w) with (_setup (Some r) w).
    + exact (_setup_offline r w C).
    + rewrite _update_eq. unfold update_body. rewrite bind_get, E. reflexivity.
Qed.

(** A tick without a connection sends nothing and ends the session: the
    flag is down, the cached model is cleared and the timer of
    [_syncInterval] of a session with an editor is stopped. *)
Theorem offline_tick_tears_down (w : World) :
  connected w = false ->
  (_onSyncTick w).1.2 = []
  /\ _hasEditor (_onSyncTick w).1.1 = false
  /\ _cache_model (_onSyncTick w).1.1 = None
  /\ (forall id, _hasEditor w = true -> _syncInterval w = Some id ->
                 id ∉ timers (_onSyncTick w).1.1).
Proof.
  intros C. unfold _onSyncTick. mstep.
  rewrite _call_disconnected; [|reflexivity|exact C].
  unfold attach, fail_now. mstep.
  rewrite remote_fault_disconnected; [|reflexivity|exact C].
  destruct w as [? [] [t|] ? ? ? ? ? ? ? ? ?]; cbn;
    repeat split; auto; intros id E Hi; try discriminate.
  injection Hi as ->. intros Hin. apply list_elem_of_filter in Hin as [Hne _].
  contradiction.
Qed.

(** *** Injection *)

Lemma _call_keeps_dependencies e w :
  _cache_dependencies (_call e w).1.1 = _cache_dependencies w.
Proof.
  unfold _call. destruct (String.eqb e EmptyString); [reflexivity|].
  rewrite bind_get. destruct (connected w); reflexivity.
Qed.

(** What [_init] does in each case. *)
Lemma _init_outcome (providers : option (list string))
    (w : World) :
  _cache_dependencies (_init providers w).1.1
    = Some (LiveEditorRemoteDriver :: default [] providers)
  /\ (exists t, (_init providers w).1.2 = TriggerInit :: t)
  /\ (connected w = false ->
      String.concat ";" (LiveEditorRemoteDriver :: default [] providers)
        <> EmptyString ->
      (_init providers w).1.2 = [TriggerInit]
      /\ (_init providers w).2 = Normal Rejected)
  /\ (connected w = true ->
      String.concat ";" (LiveEditorRemoteDriver :: default [] providers)
        <> EmptyString ->
      (_init providers w).1.2
        = [TriggerInit;
           Evaluate (next_call w)
             (String.concat ";" (LiveEditorRemoteDriver :: default [] providers))]
      /\ (_init providers w).2 = Normal (InFlight (next_call w)))
  /\ (String.concat ";" (LiveEditorRemoteDriver :: default [] providers)
        = EmptyString ->
      (_init providers w).1.2 = [TriggerInit]
      /\ (_init providers w).2 = Throw TypeError).
Proof.
  split; [|split; [apply _init_effects|]].
  - unfold _init. cbv zeta. rewrite bind_modify.
    match goal with
    | |- context [(emit TriggerInit ≫= ?k) ?w0] =>
        change ((emit TriggerInit ≫= k) w0) with (bind (emit TriggerInit) k w0)
    end.
    rewrite bind_world. cbn [emit fst snd].
    rewrite _call_keeps_dependencies. reflexivity.
  - unfold _init. cbv zeta. mstep.
    split; [|split].
    + intros C Hne. apply String.eqb_neq in Hne.
      rewrite _call_disconnected; [auto|exact Hne|exact C].
    + intros C Hne. apply String.eqb_neq in Hne.
      rewrite _call_connected; [auto|exact Hne|exact C].
    + intros ->. cbn. auto.
Qed.

(** [_init] records the driver text followed by the given providers and
    announces [init] before anything else, also when the expression then
    does not leave: without a connection the promise is rejected, and when
    all the texts are empty the call raises. *)
Theorem init_caches_and_announces (providers : option (list string))
    (w : World) :
  _cache_dependencies (_init providers w).1.1
    = Some (LiveEditorRemoteDriver :: default [] providers)
  /\ (exists t, (_init providers w).1.2 = TriggerInit :: t)
  /\ (connected w = false ->
      String.concat ";" (LiveEditorRemoteDriver :: default [] providers)
        <> EmptyString ->
      (_init providers w).1.2 = [TriggerInit]
      /\ (_init providers w).2 = Normal Rejected)
  /\ (connected w = true ->
      String.concat ";" (LiveEditorRemoteDriver :: default [] providers)
        <> EmptyString ->
      (_init providers w).1.2
        = [TriggerInit;
           Evaluate (next_call w)
             (String.concat ";" (LiveEditorRemoteDriver :: default [] providers))]
      /\ (_init providers w).2 = Normal (InFlight (next_call w)))
  /\ (String.concat ";" (LiveEditorRemoteDriver :: default [] providers)
        = EmptyString ->
      (_init providers w).1.2 = [TriggerInit]
      /\ (_init providers w).2 = Throw TypeError).
Proof. exact (_init_outcome providers w). Qed.

(** Each attempt of [_reconnect] puts the driver text once more in front of
    the cached dependencies: the list grows by one text per attempt. *)
Theorem reconnect_adds_driver_text (w : World) (deps : list string) :
  _retryCount w <> 0 -> _cache_dependencies w = Some deps ->
  _cache_dependencies (_reconnect w).1.1
    = Some (LiveEditorRemoteDriver :: deps)
  /\ (connected w = true ->
      String.concat ";" (LiveEditorRemoteDriver :: deps) <> EmptyString ->
      (_reconnect w).1.2
        = [TriggerInit;
           Evaluate (next_call w)
             (String.concat ";" (LiveEditorRemoteDriver :: deps))]).
Proof.
  intros Hz Hd. unfold _reconnect. rewrite bind_get.
  apply Z.eqb_neq in Hz. rewrite Hz, bind_modify, Hd.
  match goal with
  | |- context [(?m ≫= ?k) ?w0] => change ((m ≫= k) w0) with (bind m k w0)
  end.
  destruct (_init_outcome (Some deps)
              (set_retryCount (_retryCount w - 1) w)) as (A & _ & _ & B & _).
  cbn [default] in A, B. split.
  - rewrite bind_world.
    destruct ((_init (Some deps) (set_retryCount (_retryCount w - 1) w)).2)
      as [p|e]; [|exact A].
    destruct p; cbn; exact A.
  - intros C Hne. rewrite bind_effects.
    destruct (B C Hne) as [B1 B2]. rewrite B1, B2. reflexivity.
Qed.

(** *** The retry count stays in its range *)

Theorem retryCount_in_range (evs : list Event) : forall (w w' : World) t,
  0 <= _retryCount w <= 5 -> run evs w = Some (w', t) ->
  0 <= _retryCount w' <= 5.
Proof.
  induction evs as [|ev evs IH]; intros w w' t Hr Hrun.
  - injection Hrun as <- <-. exact Hr.
  - cbn [run] in Hrun.
    destruct (step ev w) as [[w1 t1]|] eqn:Hs; [|discriminate].
    destruct (run evs w1) as [[w2 t2]|] eqn:Hr1; [|discriminate].
    injection Hrun as <- <-.
    apply (IH w1 w2 t2); [|exact Hr1].
    destruct (step_budget ev w w1 t1 Hs)
      as [[_ [(Z0 & Z1 & _)|(Z0 & Z1 & _)]]|[(_ & _ & [Z1|Z1])|(_ & _ & Z1)]];
      lia.
Qed.

(** *** The timers *)

(** The successful answer of a [setup] starts a timer and keeps it in
    [_syncInterval]; the timers that were running go on running, the one
    [_syncInterval] held before included, and the [_remove] that follows
    stops none of them. *)
Theorem setup_success_starts_another_timer (id : nat)
    (v : option RemoteObject) (w : World) :
  handlers_of id w = Some OnSetup ->
  exists w',
    step (Answer id (Some (mkResponse false v))) w = Some (w', [])
    /\ _hasEditor w' = true
    /\ _syncInterval w' = Some (next_timer w)
    /\ timers w' = next_timer w :: timers w
    /\ (forall t0, t0 ∈ timers w -> t0 <> next_timer w ->
                   t0 ∈ timers (_remove w').1.1).
Proof.
  intros Hh. unfold step, react. rewrite Hh.
  unfold callback, on_resolve, _startSyncLoop. mstep.
  cbn [wasThrown result]. eexists. split; [reflexivity|].
  split; [reflexivity|]. split; [reflexivity|]. split; [reflexivity|].
  intros t0 Hin Hne.
  destruct w as [? ? ? ? ? ? [] ? ? ? ? ?]; cbn in *.
  - rewrite _remove_connected by reflexivity. cbn -[filter].
    apply list_elem_of_filter. split; [exact Hne|].
    apply list_elem_of_further, Hin.
  - rewrite _remove_disconnected by reflexivity. cbn -[filter].
    apply list_elem_of_filter. split; [exact Hne|].
    apply list_elem_of_further, Hin.
Qed.

(** *** Invariants of the driver, in general *)

Section Holds.

Variable I : World -> Prop.
Variable P : Effect -> Prop.

Hypothesis I_cache : forall c w, I w -> I (set_cache_model c w).
Hypothesis I_deps : forall d w, I w -> I (set_cache_dependencies d w).
Hypothesis I_rc : forall n w, I w -> I (set_retryCount n w).
Hypothesis I_model : forall m w, I w -> I (set_model m w).
Hypothesis I_pending : forall p w, I w -> I (set_pending p w).
Hypothesis I_models : forall f w, I w -> I (set_models f w).
Hypothesis P_init : P TriggerInit.
Hypothesis P_change : forall s, P (TriggerModelChange s).
Hypothesis P_raise : forall e, P (Raise e).
Hypothesis H_call : forall e, holds I P (_call e).
Hypothesis H_reset : holds I P _reset.
Hypothesis H_started :
  holds I P (_startSyncLoop ≫= fun _ => modify (set_hasEditor true)).

Lemma holds_bind {A B} (m : M A) (k : A -> M B) :
  holds I P m -> (forall a, holds I P (k a)) -> holds I P (m ≫= k).
Proof.
  intros Hm Hk w Hw. change (m ≫= k) with (bind m k).
  rewrite bind_world, bind_effects. destruct (Hm w Hw) as [Hi Hp].
  destruct ((m w).2) as [a|e].
  - destruct (Hk a _ Hi) as [Hi' Hp']. split; [exact Hi'|].
    apply Forall_app. auto.
  - rewrite app_nil_r. auto.
Qed.

Lemma holds_ret {A} (a : A) : holds I P (mret a).
Proof. intros w Hw. split; [exact Hw|constructor]. Qed.

Lemma holds_throw {A} e : holds I P (@throw A e).
Proof. intros w Hw. split; [exact Hw|constructor]. Qed.

Lemma holds_get : holds I P get.
Proof. intros w Hw. split; [exact Hw|constructor]. Qed.

Lemma holds_emit e : P e -> holds I P (emit e).
Proof. intros He w Hw. split; [exact Hw|]. repeat constructor. exact He. Qed.

Lemma holds_modify f : (forall w, I w -> I (f w)) -> holds I P (modify f).
Proof. intros Hf w Hw. split; [apply Hf, Hw|constructor]. Qed.

Ltac hold :=
  repeat first
    [ solve [auto 2]
    | apply holds_ret | apply holds_throw | apply holds_get
    | apply holds_emit; solve [auto 2]
    | apply holds_modify; intros ? ?; unfold answered; solve [auto 2]
    | apply holds_bind; [|intros ?]
    | progress cbv zeta
    | match goal with
      | |- holds _ _ (if ?c then _ else _) => destruct c
      | |- holds _ _ (match ?x with _ => _ end) => destruct x
      end ].

Lemma holds_attach p h : holds I P (attach p h).
Proof. unfold attach. hold. Qed.

Lemma holds_remove : holds I P _remove.
Proof. unfold _remove. hold. Qed.

Lemma holds_init ps : holds I P (_init ps).
Proof. unfold _init. hold. Qed.

Lemma holds_reconnect : holds I P _reconnect.
Proof.
  pose proof holds_init. pose proof holds_attach. unfold _reconnect. hold.
Qed.

Lemma holds_whenRemoteCallFailed result :
  holds I P (_whenRemoteCallFailed result).
Proof.
  pose proof holds_reconnect. pose proof holds_remove.
  unfold _whenRemoteCallFailed. hold.
Qed.

Lemma holds_fail_now p : holds I P (fail_now p).
Proof. pose proof holds_whenRemoteCallFailed. unfold fail_now. hold. Qed.

Lemma holds_setup_body upd m :
  (forall m', holds I P (upd m')) -> holds I P (setup_body upd m).
Proof.
  intros Hu. pose proof holds_attach. pose proof holds_fail_now.
  unfold setup_body. hold.
Qed.

Lemma holds_update_body stp m :
  (forall m', holds I P (stp m')) -> holds I P (update_body stp m).
Proof.
  intros Hs. pose proof holds_attach. pose proof holds_fail_now.
  pose proof holds_remove. unfold update_body. hold.
Qed.

Lemma holds_setup m : holds I P (_setup m).
Proof.
  unfold _setup. apply holds_setup_body. intros ?.
  apply holds_update_body. intros ?. apply holds_setup_body. intros ?.
  apply holds_throw.
Qed.

Lemma holds_update m : holds I P (_update m).
Proof. apply holds_update_body, holds_setup. Qed.

Lemma holds_sync data : holds I P (sync data).
Proof. unfold sync. hold. Qed.

Lemma holds_whenGetRemoteModel v : holds I P (_whenGetRemoteModel v).
Proof. pose proof holds_sync. unfold _whenGetRemoteModel. hold. Qed.

Lemma holds_onSyncTick : holds I P _onSyncTick.
Proof.
  pose proof holds_attach. pose proof holds_fail_now. unfold _onSyncTick. hold.
Qed.

Lemma holds_onPostInit : holds I P onPostInit.
Proof. pose proof holds_setup. unfold onPostInit. hold. Qed.

Lemma holds_callback h resp : holds I P (callback h resp).
Proof.
  pose proof holds_setup. pose proof holds_whenGetRemoteModel.
  pose proof holds_onPostInit. pose proof holds_whenRemoteCallFailed.
  destruct resp as [[thrown v]|]; [|apply holds_throw].
  cbn [callback wasThrown result].
  destruct thrown; destruct h; cbn [on_resolve on_reject]; hold.
Qed.

(** Every event but a change of the connection keeps [I] and has effects
    that satisfy [P]. *)
Lemma holds_step ev w w' t :
  (forall up, ev <> Connection up) ->
  step ev w = Some (w', t) -> I w -> I w' /\ Forall P t.
Proof.
  intros Hev Hs Hw. apply step_react in Hs as (m & Hr & -> & ->).
  assert (Hm : holds I P m).
  { pose proof holds_init. pose proof holds_setup. pose proof holds_update.
    pose proof holds_remove. pose proof holds_onSyncTick.
    pose proof holds_callback.
    destruct ev as [ps|mo|mo| |tm|id resp|up|r a]; cbn [react] in Hr.
    1-4: injection Hr as <-; hold.
    - destruct (bool_decide (tm ∈ timers w)); [|discriminate].
      injection Hr as <-. hold.
    - destruct (handlers_of id w) as [h|]; [|discriminate].
      injection Hr as <-. hold.
    - exfalso. exact (Hev up eq_refl).
    - injection Hr as <-. hold. }
  destruct (Hm w Hw) as [Hi Hp]. split; [exact Hi|].
  apply Forall_app. split; [exact Hp|].
  destruct ((m w).2); repeat constructor. apply P_raise.
Qed.

End Holds.

(** *** Nothing leaves without a connection *)

Lemma no_evaluation_evaluations t :
  Forall (fun e => is_evaluation e = false) t -> evaluations t = [].
Proof.
  induction 1 as [|e t He _ IH]; [reflexivity|].
  unfold evaluations in *. cbn. destruct e; try discriminate; exact IH.
Qed.

Lemma offline_step ev w w' t :
  (forall up, ev <> Connection up) ->
  step ev w = Some (w', t) -> connected w = false ->
  connected w' = false /\ Forall (fun e => is_evaluation e = false) t.
Proof.
  apply (holds_step (fun w => connected w = false)
           (fun e => is_evaluation e = false)); try (intros; assumption);
    try reflexivity.
  - intros e w0 C. unfold _call.
    destruct (String.eqb e EmptyString); [split; [exact C|constructor]|].
    rewrite bind_get, C. split; [exact C|constructor].
  - intros w0 C. unfold _reset, _stopSyncLoop. mstep.
    destruct w0 as [? ? [t0|] ? ? ? ? ? ? ? ? ?]; split;
      first [exact C|constructor].
  - intros w0 C. unfold _startSyncLoop. mstep. split; [exact C|constructor].
Qed.

Lemma connection_or_not ev :
  (exists up, ev = Connection up) \/ (forall up, ev <> Connection up).
Proof. destruct ev; try (right; discriminate). left. eauto. Qed.

(** While the Inspector is disconnected no event makes the driver evaluate
    anything in the page: a call of the editor, a tick, or a late answer. *)
Theorem offline_sends_nothing (ev : Event) (w w' : World) t :
  connected w = false -> step ev w = Some (w', t) ->
  evaluations t = []
  /\ ((forall up, ev <> Connection up) -> connected w' = false).
Proof.
  intros C Hs.
  destruct (connection_or_not ev) as [[up ->]|Hev].
  - cbn in Hs. injection Hs as <- <-. split; [reflexivity|].
    intros Hn. exfalso. exact (Hn up eq_refl).
  - destruct (offline_step ev w w' t Hev Hs C) as [C' Hf].
    split; [exact (no_evaluation_evaluations t Hf)|]. intros _. exact C'.
Qed.

(** *** No empty expression leaves *)

Lemma step_sends_text ev w w' t :
  step ev w = Some (w', t) -> Forall sends_text t.
Proof.
  intros Hs. destruct (connection_or_not ev) as [[up ->]|Hev].
  - cbn in Hs. injection Hs as <- <-. constructor.
  - refine (proj2 (holds_step (fun _ => True) sends_text _ _ _ _ _ _ _ _ _
                     _ _ _ ev w w' t Hev Hs Logic.I));
      try (intros; exact Logic.I).
    + intros e w0 _. split; [exact Logic.I|]. unfold _call.
      destruct (String.eqb e EmptyString) eqn:E; [constructor|].
      rewrite bind_get. destruct (connected w0); [|constructor].
      repeat constructor. cbn. apply String.eqb_neq, E.
    + intros w0 _. split; [exact Logic.I|]. unfold _reset, _stopSyncLoop.
      mstep. constructor.
    + intros w0 _. split; [exact Logic.I|]. unfold _startSyncLoop. mstep.
      constructor.
Qed.

(** Whatever the events, no expression that the driver evaluates in the
    page is empty. *)
Theorem never_evaluates_empty_expression (evs : list Event) :
  forall (w w' : World) t id e,
    run evs w = Some (w', t) -> Evaluate id e ∈ t -> e <> EmptyString.
Proof.
  induction evs as [|ev evs IH]; intros w w' t id e Hrun Hin.
  - injection Hrun as <- <-. apply elem_of_nil in Hin. contradiction.
  - cbn [run] in Hrun.
    destruct (step ev w) as [[w1 t1]|] eqn:Hs; [|discriminate].
    destruct (run evs w1) as [[w2 t2]|] eqn:Hr1; [|discriminate].
    injection Hrun as <- <-. apply elem_of_app in Hin as [Hin|Hin].
    + pose proof (step_sends_text ev w w1 t1 Hs) as Hf.
      rewrite Forall_forall in Hf. exact (Hf _ Hin).
    + exact (IH w1 w2 t2 id e Hr1 Hin).
Qed.

(** *** With an editor the loop runs *)

Lemma loop_running_step ev w w' t :
  step ev w = Some (w', t) -> loop_running w = true -> loop_running w' = true.
Proof.
  intros Hs Hw. destruct (connection_or_not ev) as [[up ->]|Hev].
  - cbn in Hs. injection Hs as <- <-. exact Hw.
  - refine (proj1 (holds_step (fun w => loop_running w = true)
                     (fun _ => True) _ _ _ _ _ _ _ _ _ _ _ _
                     ev w w' t Hev Hs Hw));
      try (intros; exact Logic.I); try (intros ? ? Hl; exact Hl).
    + intros e w0 Hl. split; [|apply Forall_forall; intros; exact Logic.I].
      unfold _call. destruct (String.eqb e EmptyString); [exact Hl|].
      rewrite bind_get. destruct (connected w0); exact Hl.
    + intros w0 _. split; [|apply Forall_forall; intros; exact Logic.I].
      unfold _reset, _stopSyncLoop. mstep. reflexivity.
    + intros w0 _. split; [|apply Forall_forall; intros; exact Logic.I].
      unfold _startSyncLoop. mstep. unfold loop_running. cbn.
      apply bool_decide_eq_true. apply list_elem_of_here.
Qed.

(** Events keep this: an editor that is set up has its timer running.  In
    every session that events made of one where it holds (a new session is
    one), [_syncInterval] of a session with an editor holds a timer that
    was not stopped. *)
Theorem editor_keeps_loop_running (evs : list Event) :
  forall (w w' : World) t,
    loop_running w = true -> run evs w = Some (w', t) ->
    _hasEditor w' = true ->
    exists id, _syncInterval w' = Some id /\ id ∈ timers w'.
Proof.
  assert (Hrun : forall evs w w' t, loop_running w = true ->
            run evs w = Some (w', t) -> loop_running w' = true).
  { clear evs. induction evs as [|ev evs IH]; intros w w' t Hw Hr.
    - injection Hr as <- <-. exact Hw.
    - cbn [run] in Hr.
      destruct (step ev w) as [[w1 t1]|] eqn:Hs; [|discriminate].
      destruct (run evs w1) as [[w2 t2]|] eqn:Hr1; [|discriminate].
      injection Hr as <- <-.
      exact (IH w1 w2 t2 (loop_running_step ev w w1 t1 Hs Hw) Hr1). }
  intros w w' t Hw Hr E. pose proof (Hrun evs w w' t Hw Hr) as Hl.
  unfold loop_running in Hl. rewrite E in Hl. cbn in Hl.
  destruct (_syncInterval w') as [id|]; [|discriminate].
  exists id. split; [reflexivity|]. apply bool_decide_eq_true in Hl. exact Hl.
Qed.

(** *** Round trips of [_setup] and [_update] *)

(** A [_setup] without an editor, over a connection, sends the [setup]
    expression; when the page answers with success the editor flag goes up
    and a timer starts, the snapshot being left as it was; when it answers
    with a failure that is not a lost context the session stays without an
    editor and forgets the model. *)
Theorem setup_round_trip (r : ModelRef) (w : World) (v : option RemoteObject) :
  _hasEditor w = false -> connected w = true ->
  (exists w2,
     run [CallSetup (Some r); Answer (next_call w) (Some (mkResponse false v))] w
     = Some (w2, [Evaluate (next_call w) (setup_expr (models w r))])
     /\ _hasEditor w2 = true
     /\ _model w2 = _model w
     /\ _syncInterval w2 = Some (next_timer w)
     /\ _cache_model w2 = Some (default r (_cache_model w)))
  /\ (lostContext v = false ->
      exists w2,
        run [CallSetup (Some r); Answer (next_call w) (Some (mkResponse true v))] w
        = Some (w2, [Evaluate (next_call w) (setup_expr (models w r))])
        /\ _hasEditor w2 = false
        /\ _cache_model w2 = None).
Proof.
  intros E C.
  assert (Hs : step (CallSetup (Some r)) w
               = Some (issued OnSetup
                         (set_cache_model (Some (default r (_cache_model w))) w),
                       [Evaluate (next_call w) (setup_expr (models w r))])).
  { unfold step, react. mstep. rewrite (_setup_without_editor r w E C).
    reflexivity. }
  assert (Hh : handlers_of (next_call w)
                 (issued OnSetup
                    (set_cache_model (Some (default r (_cache_model w))) w))
               = Some OnSetup)
    by exact (handlers_of_issued OnSetup
                (set_cache_model (Some (default r (_cache_model w))) w)).
  split.
  - cbn [run]. rewrite Hs. unfold step at 1, react. rewrite Hh.
    unfold callback, on_resolve, _startSyncLoop. mstep.
    cbn [wasThrown result]. eexists. split; [reflexivity|].
    destruct w; cbn; auto.
  - intros L. cbn [run]. rewrite Hs. unfold step at 1, react. rewrite Hh.
    unfold callback, on_reject. mstep. cbn [wasThrown result].
    rewrite remote_fault_connected;
      [|exact L|destruct w; exact C].
    destruct w as [? [] ? ? ? ? ? ? ? ? ? ?]; cbn in E; try discriminate.
    eexists. split; [reflexivity|]. cbn. auto.
Qed.

(** An [_update] of the target the snapshot records, over a connection,
    caches the model and sends the [update] expression; the editor flag,
    the snapshot and the timers are untouched, and the successful answer
    changes nothing more. *)
Theorem update_same_target_keeps_session (r : ModelRef) (w : World)
    (v : option RemoteObject) :
  _hasEditor w = true -> connected w = true ->
  strict_eq (selector (models w r)) (_model w !! "selector") = true ->
  strict_eq (property (models w r)) (_model w !! "property") = true ->
  _update (Some r) w
    = (issued OnUpdate (set_cache_model (Some r) w),
       [Evaluate (next_call w) (update_expr (models w r))],
       Normal (Promise (InFlight (next_call w))))
  /\ step (Answer (next_call w) (Some (mkResponse false v)))
       (issued OnUpdate (set_cache_model (Some r) w))
     = Some (answered (next_call w)
               (issued OnUpdate (set_cache_model (Some r) w)), [])
  /\ _hasEditor (issued OnUpdate (set_cache_model (Some r) w)) = true
  /\ _model (issued OnUpdate (set_cache_model (Some r) w)) = _model w
  /\ timers (issued OnUpdate (set_cache_model (Some r) w)) = timers w.
Proof.
  intros E C Hs Hp. split; [|split].
  - rewrite _update_eq. unfold update_body. mstep. world_simpl.
    rewrite E, Hs, Hp. cbn [negb orb].
    rewrite _call_connected; [|apply update_expr_not_empty|exact C].
    reflexivity.
  - assert (Hh : handlers_of (next_call w)
                   (issued OnUpdate (set_cache_model (Some r) w))
                 = Some OnUpdate)
      by exact (handlers_of_issued OnUpdate (set_cache_model (Some r) w)).
    unfold step, react. rewrite Hh. reflexivity.
  - destruct w; cbn in *; auto.
Qed.

(** *** One expression per event at most *)

Lemma evaluations_app a b :
  evaluations (a ++ b) = evaluations a ++ evaluations b.
Proof. apply omap_app. Qed.

Lemma silent_bind {A B} (m : M A) (k : A -> M B) :
  silent m -> (forall a, silent (k a)) -> silent (m ≫= k).
Proof.
  intros Hm Hk w. change (m ≫= k) with (bind m k).
  rewrite bind_effects, evaluations_app, Hm.
  destruct ((m w).2); [apply Hk|reflexivity].
Qed.

Lemma one_bind_l {A B} (m : M A) (k : A -> M B) :
  silent m -> (forall a, sends_at_most_one (k a)) ->
  sends_at_most_one (m ≫= k).
Proof.
  intros Hm Hk w. change (m ≫= k) with (bind m k).
  rewrite bind_effects, evaluations_app, Hm.
  destruct ((m w).2); [apply Hk|cbn; lia].
Qed.

Lemma one_bind_r {A B} (m : M A) (k : A -> M B) :
  sends_at_most_one m -> (forall a, silent (k a)) ->
  sends_at_most_one (m ≫= k).
Proof.
  intros Hm Hk w. change (m ≫= k) with (bind m k).
  rewrite bind_effects, evaluations_app, length_app.
  destruct ((m w).2); [rewrite Hk|]; cbn; pose proof (Hm w); lia.
Qed.

Lemma silent_one {A} (m : M A) : silent m -> sends_at_most_one m.
Proof. intros Hm w. rewrite Hm. cbn. lia. Qed.

Lemma silent_ret {A} (a : A) : silent (mret a).
Proof. intros w. reflexivity. Qed.

Lemma silent_throw {A} e : silent (@throw A e).
Proof. intros w. reflexivity. Qed.

Lemma silent_get : silent get.
Proof. intros w. reflexivity. Qed.

Lemma silent_modify f : silent (modify f).
Proof. intros w. reflexivity. Qed.

Lemma silent_emit e : is_evaluation e = false -> silent (emit e).
Proof. intros He w. destruct e; try discriminate; reflexivity. Qed.

Ltac quiet :=
  repeat first
    [ solve [auto 2]
    | apply silent_ret | apply silent_throw | apply silent_get
    | apply silent_modify
    | apply silent_emit; reflexivity
    | apply silent_bind; [|intros ?]
    | progress cbv zeta
    | match goal with
      | |- silent (if ?c then _ else _) => destruct c
      | |- silent (match ?x with _ => _ end) => destruct x
      end ].

Ltac one :=
  repeat first
    [ solve [auto 2]
    | apply silent_one; solve [quiet]
    | apply one_bind_l; [solve [quiet]|intros ?]
    | apply one_bind_r; [|intros ?; solve [quiet]]
    | progress cbv zeta
    | match goal with
      | |- sends_at_most_one (if ?c then _ else _) => destruct c
      | |- sends_at_most_one (match ?x with _ => _ end) => destruct x
      end ].

Lemma silent_attach p h : silent (attach p h).
Proof. unfold attach. quiet. Qed.

Lemma silent_reset : silent _reset.
Proof. unfold _reset, _stopSyncLoop. quiet. Qed.

Lemma silent_startSyncLoop : silent _startSyncLoop.
Proof. intros w. reflexivity. Qed.

Lemma silent_sync data : silent (sync data).
Proof. unfold sync. quiet. Qed.

Lemma silent_whenGetRemoteModel v : silent (_whenGetRemoteModel v).
Proof. pose proof silent_sync. unfold _whenGetRemoteModel. quiet. Qed.

Lemma one_call e : sends_at_most_one (_call e).
Proof.
  intros w. unfold _call. destruct (String.eqb e EmptyString); [cbn; lia|].
  rewrite bind_get. destruct (connected w); cbn; lia.
Qed.

Lemma one_remove : sends_at_most_one _remove.
Proof.
  pose proof silent_reset. pose proof one_call. unfold _remove. one.
Qed.

Lemma one_init ps : sends_at_most_one (_init ps).
Proof. pose proof one_call. unfold _init. one. Qed.

Lemma one_reconnect : sends_at_most_one _reconnect.
Proof.
  pose proof one_init. pose proof silent_attach. unfold _reconnect. one.
Qed.

Lemma one_whenRemoteCallFailed result :
  sends_at_most_one (_whenRemoteCallFailed result).
Proof.
  pose proof one_reconnect. pose proof one_remove.
  unfold _whenRemoteCallFailed. one.
Qed.

Lemma one_fail_now p : sends_at_most_one (fail_now p).
Proof. pose proof one_whenRemoteCallFailed. unfold fail_now. one. Qed.

(** After [_call], what is chained runs at once only when nothing was
    sent. *)
Lemma one_call_then {A} e (f : PState -> M A) :
  (forall id, silent (f (InFlight id))) -> sends_at_most_one (f Rejected) ->
  sends_at_most_one (_call e ≫= f).
Proof.
  intros Hi Hr w. change (_call e ≫= f) with (bind (_call e) f).
  rewrite bind_effects, evaluations_app, length_app.
  unfold _call. destruct (String.eqb e EmptyString); [cbn; lia|].
  rewrite bind_get. destruct (connected w); cbn [negb].
  - unfold evaluate. cbv beta iota. cbn [fst snd]. rewrite Hi. cbn. lia.
  - cbn [ret fst snd]. pose proof (Hr w). cbn. lia.
Qed.

Lemma silent_fail_now_in_flight id : silent (fail_now (InFlight id)).
Proof. intros w. reflexivity. Qed.

Lemma one_setup_body upd m :
  (forall m', sends_at_most_one (upd m')) ->
  sends_at_most_one (setup_body upd m).
Proof.
  intros Hu. pose proof silent_attach. pose proof silent_fail_now_in_flight.
  pose proof one_fail_now. unfold setup_body.
  apply one_bind_l; [quiet|intros _].
  destruct m as [r|]; [|apply silent_one, silent_throw].
  apply one_bind_l; [quiet|intros w0]. cbv zeta.
  match goal with |- sends_at_most_one (if ?c then _ else _) => destruct c end;
    [apply Hu|].
  apply one_call_then; [intros id; quiet|one].
Qed.

Lemma one_update_body stp m :
  (forall m', sends_at_most_one (stp m')) ->
  sends_at_most_one (update_body stp m).
Proof.
  intros Hs. pose proof silent_attach. pose proof silent_fail_now_in_flight.
  pose proof one_fail_now. pose proof one_remove. unfold update_body.
  destruct m as [r|]; [|apply silent_one, silent_throw].
  apply one_bind_l; [quiet|intros w0].
  match goal with |- sends_at_most_one (if ?c then _ else _) => destruct c end;
    [apply Hs|].
  apply one_bind_l; [quiet|intros _]. cbv zeta.
  match goal with |- sends_at_most_one (if ?c then _ else _) => destruct c end.
  - apply one_bind_r; [exact one_remove|]. intros [|p]; quiet.
  - apply one_call_then; [intros id; quiet|one].
Qed.

Lemma one_setup m : sends_at_most_one (_setup m).
Proof.
  unfold _setup. apply one_setup_body. intros ?.
  apply one_update_body. intros ?. apply one_setup_body. intros ?.
  apply silent_one, silent_throw.
Qed.

Lemma one_update m : sends_at_most_one (_update m).
Proof. apply one_update_body, one_setup. Qed.

Lemma one_onSyncTick : sends_at_most_one _onSyncTick.
Proof.
  pose proof silent_attach. pose proof silent_fail_now_in_flight.
  pose proof one_fail_now. unfold _onSyncTick.
  apply one_call_then; [intros id; quiet|one].
Qed.

Lemma one_onPostInit : sends_at_most_one onPostInit.
Proof.
  pose proof silent_reset. pose proof one_setup. unfold onPostInit.
  apply one_bind_l; [quiet|intros _].
  apply one_bind_l; [quiet|intros w0].
  apply one_bind_r; [apply one_setup|intros _; quiet].
Qed.

Lemma one_callback h resp : sends_at_most_one (callback h resp).
Proof.
  pose proof one_setup. pose proof silent_whenGetRemoteModel.
  pose proof one_onPostInit. pose proof one_whenRemoteCallFailed.
  pose proof silent_startSyncLoop.
  destruct resp as [[thrown v]|]; [|apply silent_one, silent_throw].
  cbn [callback wasThrown result].
  destruct thrown; destruct h; cbn [on_resolve on_reject]; one.
Qed.

(** Every event makes the driver evaluate at most one expression in the
    page. *)
Theorem event_sends_at_most_one (ev : Event) (w w' : World) t :
  step ev w = Some (w', t) -> (length (evaluations t) <= 1)%nat.
Proof.
  intros Hs. apply step_react in Hs as (m & Hr & -> & ->).
  assert (Hm : sends_at_most_one m).
  { pose proof one_init. pose proof one_setup. pose proof one_update.
    pose proof one_remove. pose proof one_onSyncTick. pose proof one_callback.
    destruct ev as [ps|mo|mo| |tm|id resp|up|r a]; cbn [react] in Hr.
    1-4, 7-8: injection Hr as <-; one.
    - destruct (bool_decide (tm ∈ timers w)); [|discriminate].
      injection Hr as <-. one.
    - destruct (handlers_of id w) as [h|]; [|discriminate].
      injection Hr as <-. one. }
  rewrite evaluations_app, length_app. pose proof (Hm w).
  destruct ((m w).2); cbn; lia.
Qed.


End Properties.

(** ** The properties on the sample data *)

#[local] Existing Instance sample.

(** The sample session is what a set-up, its answer, a poll and its answer
    make of a new session. *)
Example sample_active_reached :
  run [CallSetup (Some 0%nat); Answer 0 answer_ok; Tick 0;
       Answer 1 (answer_text text_model)] (initial true sample_models)
  = Some (sample_active true,
          [Evaluate 0 (setup_expr (sample_models 0%nat));
           Evaluate 1 getModel_expr;
           TriggerModelChange sample_snapshot]).
Proof. vm_compute. reflexivity. Qed.

(** A second [_setup] of the same target before the first poll came back
    meets an empty snapshot: it sends [setup] again. *)
Example setup_again_before_first_poll :
  run [CallSetup (Some 0%nat); Answer 0 answer_ok; CallSetup (Some 0%nat)]
      (initial true sample_models)
  = Some (issued OnSetup
            (mkWorld ∅ true (Some 0%nat) 5 (Some 0%nat) None true
               sample_models [0%nat] 1%nat [] 1%nat),
          [Evaluate 0 (setup_expr (sample_models 0%nat));
           Evaluate 1 (setup_expr (sample_models 0%nat))]).
Proof. vm_compute. reflexivity. Qed.

(** C1.  The editor of model 0 is set up and the page confirmed it; no poll
    was answered yet, so the snapshot is still empty.  Model 1 is the same
    element and property with another value.  [_setup] of model 1 is not
    an [_update] here: it sends [setup] again, as [_setup] of model 0
    itself does, and when the page confirms it a second timer runs beside
    the first.  [_update] of model 1 sends [remove]: the other value alone
    tears the editor down. *)
Theorem setup_of_active_target_before_first_poll :
  exists w1,
    run [CallSetup (Some 0%nat); Answer 0 answer_ok]
        (initial true sample_models)
    = Some (w1, [Evaluate 0 (setup_expr (sample_models 0%nat))])
    /\ _hasEditor w1 = true
    /\ _model w1 = ∅
    /\ active_for (sample_models 0%nat) w1 = true
    /\ other_target (sample_models 1%nat) (sample_models 0%nat) = false
    /\ (_setup (Some 1%nat) w1).1.2
       = [Evaluate 1 (setup_expr (sample_models 1%nat))]
    /\ (_setup (Some 0%nat) w1).1.2
       = [Evaluate 1 (setup_expr (sample_models 0%nat))]
    /\ (_update (Some 1%nat) w1).1.2 = [Evaluate 1 remove_expr]
    /\ _setup (Some 1%nat) w1 <> _update (Some 1%nat) w1
    /\ exists w3,
         run [CallSetup (Some 1%nat); Answer 1 answer_ok] w1
         = Some (w3, [Evaluate 1 (setup_expr (sample_models 1%nat))])
         /\ timers w3 = [1%nat; 0%nat].
Proof.
  eexists. split; [vm_compute; reflexivity|].
  split; [reflexivity|]. split; [reflexivity|]. split; [reflexivity|].
  split; [reflexivity|]. split; [vm_compute; reflexivity|].
  split; [vm_compute; reflexivity|]. split; [vm_compute; reflexivity|]. split.
  - intros Heq. apply (f_equal (fun x => x.1.2)) in Heq.
    vm_compute in Heq. discriminate Heq.
  - eexists. split; vm_compute; reflexivity.
Qed.

Lemma setup_same_target_is_update_witness :
  _hasEditor (sample_active true) = true
  /\ _model (sample_active true) !! "selector" = Some (JStr (selector (sample_models 1%nat)))
  /\ _model (sample_active true) !! "property" = Some (JStr (property (sample_models 1%nat)))
  /\ _setup (Some 1%nat) (sample_active true)
     = _update (Some 1%nat) (sample_active true)
  /\ (_setup (Some 1%nat) (sample_active true)).1.2
     = [Evaluate 2 (update_expr (sample_models 1%nat))]
  /\ remove_expr ∉ evaluations (_setup (Some 1%nat) (sample_active true)).1.2.
Proof.
  assert (H1 : _hasEditor (sample_active true) = true) by reflexivity.
  assert (H2 : _model (sample_active true) !! "selector"
               = Some (JStr (selector (models (sample_active true) 1%nat))))
    by (vm_compute; reflexivity).
  assert (H3 : _model (sample_active true) !! "property"
               = Some (JStr (property (models (sample_active true) 1%nat))))
    by (vm_compute; reflexivity).
  destruct (setup_same_target_is_update 1%nat (sample_active true) H1 H2 H3)
    as (A & B & C).
  repeat split; assumption.
Defined.



(** C3.  A session polls the text of [{a:0}] twice.  The first poll adds the
    key; the second one finds the same value under the same key, changes
    nothing, and notifies [modelChange] all the same. *)
Theorem poll_of_unchanged_zero_notifies :
  _model (_whenGetRemoteModel
            (Some (mkRemoteObject (Some (JStr text_a0)) None))
            (initial true sample_models)).1.1
  = {["a" := JNum 0]}
  /\ _whenGetRemoteModel (Some (mkRemoteObject (Some (JStr text_a0)) None))
       (set_model {["a" := JNum 0]} (initial true sample_models))
     = (set_model {["a" := JNum 0]} (initial true sample_models),
        [TriggerModelChange {["a" := JNum 0]}], Normal tt).
Proof. split; vm_compute; reflexivity. Qed.

(** C6.  The snapshot holds an empty string under [value] and the poll
    brings an empty string under [value]: the two are deeply equal, the
    snapshot is left as it is, and [modelChange] is notified. *)
Theorem equal_poll_of_empty_value_notifies :
  isEqual_prop
    (_model (set_model {["value" := JStr EmptyString]}
               (initial true sample_models)) !! "value")
    (JStr EmptyString) = true
  /\ JSON_parse text_v = Some (JObj [("value", JStr EmptyString)])
  /\ _whenGetRemoteModel (Some (mkRemoteObject (Some (JStr text_v)) None))
       (set_model {["value" := JStr EmptyString]} (initial true sample_models))
     = (set_model {["value" := JStr EmptyString]} (initial true sample_models),
        [TriggerModelChange {["value" := JStr EmptyString]}], Normal tt).
Proof. repeat split; vm_compute; reflexivity. Qed.

(** A snapshot that is behind the editor.  Model 2 is set up over the
    editor of model 0 and the page confirms it; until the next poll the
    snapshot still records model 0, and an [_update] of model 1 (the
    element of model 0) is sent as a plain [update], to the editor of
    model 2. *)
Example update_against_stale_snapshot :
  exists w t,
    run [CallSetup (Some 2%nat); Answer 2 answer_ok; CallUpdate (Some 1%nat)]
        (sample_active true)
    = Some (w, t)
    /\ evaluations t
       = [setup_expr (sample_models 2%nat); update_expr (sample_models 1%nat)]
    /\ other_target (sample_models 1%nat) (sample_models 2%nat) = true
    /\ active_for (sample_models 2%nat) (sample_active true) = false.
Proof.
  eexists. eexists. split; [vm_compute; reflexivity|].
  split; [vm_compute; reflexivity|]. split; [reflexivity|].
  vm_compute. reflexivity.
Qed.

(** C7.  The editor of model 0 is set up, then removed, and the editor of
    model 2, another element, is set up in a session without an editor, so
    that [_setup] does not turn into an update: the cache still holds
    model 0.  The page is then reloaded: the next poll meets a lost
    context, the driver is injected again, and [onPostInit] sets up model
    0, not model 2, the model that was set up last. *)
Theorem restore_sets_up_older_target :
  exists w6 t6 w9,
    run [CallSetup (Some 0%nat); Answer 0 answer_ok;
         CallRemove; Answer 1 answer_ok;
         CallSetup (Some 2%nat); Answer 2 answer_ok]
        (initial true sample_models)
    = Some (w6, t6)
    /\ evaluations t6
       = [setup_expr (sample_models 0%nat); remove_expr;
          setup_expr (sample_models 2%nat)]
    /\ _hasEditor w6 = true
    /\ _cache_model w6 = Some 0%nat
    /\ run [Tick 1; Answer 3 answer_lost; Answer 4 answer_ok] w6
       = Some (w9, [Evaluate 3 getModel_expr; TriggerInit;
                    Evaluate 4 LiveEditorRemoteDriver;
                    Evaluate 5 (setup_expr (sample_models 0%nat))])
    /\ setup_expr (sample_models 0%nat) <> setup_expr (sample_models 2%nat)
    /\ _cache_model (_update (Some 2%nat) (sample_active true)).1.1
       = Some 2%nat.
Proof.
  eexists. eexists. eexists. split; [vm_compute; reflexivity|].
  split; [vm_compute; reflexivity|]. split; [reflexivity|].
  split; [reflexivity|]. split; [vm_compute; reflexivity|].
  split; [vm_compute; discriminate|]. vm_compute. reflexivity.
Qed.

(** The editor of model 0 is removed and model 2 is set up: the cache
    still holds model 0. *)
Lemma setup_keeps_older_cache :
  exists w t,
    run [CallRemove; CallSetup (Some 2%nat)] (sample_active true) = Some (w, t)
    /\ evaluations t = [remove_expr; setup_expr (sample_models 2%nat)]
    /\ _cache_model w = Some 0%nat
    /\ _cache_model w <> Some 2%nat.
Proof.
  eexists. eexists. split; [vm_compute; reflexivity|].
  split; [vm_compute; reflexivity|]. split; [reflexivity|discriminate].
Qed.

Lemma setup_caches_unless_cached_witness :
  _hasEditor (initial true sample_models)
    && (loose_eq (selector (sample_models 0%nat))
          (_model (initial true sample_models) !! "selector")
        && loose_eq (property (sample_models 0%nat))
             (_model (initial true sample_models) !! "property")) = false
  /\ connected (initial true sample_models) = true
  /\ _cache_model (_setup (Some 0%nat) (initial true sample_models)).1.1
     = Some 0%nat
  /\ (_setup (Some 0%nat) (initial true sample_models)).1.2
     = [Evaluate 0 (setup_expr (sample_models 0%nat))]
  /\ (onPostInit (sample_active true)).1.2
     = [Evaluate 2 (setup_expr (sample_models 0%nat))].
Proof.
  destruct (setup_caches_unless_cached 0%nat (initial true sample_models)
              eq_refl eq_refl) as (A & B & C).
  destruct (C 0%nat (sample_active true) eq_refl eq_refl) as (D & _).
  split; [reflexivity|]. split; [reflexivity|]. split; [exact A|].
  split; [exact B|exact D].
Defined.

(** The page answers a poll without a value: the TypeError leaves the
    driver, and the session keeps its editor, its timer and its cached
    model, which [_whenRemoteCallFailed] would have cleared. *)
Lemma malformed_poll_escapes :
  exists w,
    run [Tick 0; Answer 2 (Some (mkResponse false (Some (mkRemoteObject None None))))]
        (sample_active true)
    = Some (w, [Evaluate 2 getModel_expr; Raise TypeError])
    /\ _hasEditor w = true /\ timers w = [0%nat]
    /\ _cache_model w = Some 0%nat
    /\ _cache_model (_whenRemoteCallFailed None w).1.1 = None.
Proof.
  eexists. split; [vm_compute; reflexivity|].
  repeat split; vm_compute; reflexivity.
Qed.

Lemma malformed_model_raises_witness :
  malformed (Some (mkRemoteObject None None)) = true
  /\ handlers_of 2 (issued OnSync (sample_active true)) = Some OnSync
  /\ _whenGetRemoteModel (Some (mkRemoteObject None None))
       (issued OnSync (sample_active true))
     = (issued OnSync (sample_active true), [], Throw TypeError)
  /\ step (Answer 2 (Some (mkResponse false (Some (mkRemoteObject None None)))))
       (issued OnSync (sample_active true))
     = Some (answered 2 (issued OnSync (sample_active true)),
             [Raise TypeError]).
Proof.
  destruct (malformed_model_raises (Some (mkRemoteObject None None))
              (issued OnSync (sample_active true)) 2%nat eq_refl)
    as (A & B & _).
  split; [reflexivity|]. split; [reflexivity|]. split; [exact A|].
  exact (B eq_refl).
Defined.

(** C10.  Two polls are in flight when the page fails; the first failure is
    a fault, which clears the cached model, the second a lost context,
    which starts a reconnect.  When the injection succeeds [onPostInit]
    calls [_setup] with the cleared cache, and the read of an attribute of
    [undefined] raises a TypeError; the retry count is not restored. *)
Theorem restore_reads_cleared_model :
  exists w5 t5 w,
    run (take 6 restore_without_model) (initial true sample_models)
      = Some (w5, t5)
    /\ _cache_model w5 = None
    /\ injection_success (Answer 4 answer_ok) w5 = true
    /\ step (Answer 4 answer_ok) w5 = Some (w, [Raise TypeError])
    /\ run restore_without_model (initial true sample_models)
       = Some (w, [Evaluate 0 (setup_expr (sample_models 0%nat));
                   Evaluate 1 getModel_expr; Evaluate 2 getModel_expr;
                   Evaluate 3 remove_expr; TriggerInit;
                   Evaluate 4 LiveEditorRemoteDriver; Raise TypeError])
    /\ _retryCount w = 4.
Proof.
  eexists. eexists. eexists. split; [vm_compute; reflexivity|].
  split; [reflexivity|]. split; [vm_compute; reflexivity|].
  split; [vm_compute; reflexivity|]. split; vm_compute; reflexivity.
Qed.

(** The same end without two calls in flight: a second set-up, for another
    element, starts a second timer and forgets the first one, which goes on
    polling after the fault reset the session. *)
Example restore_without_model_after_leaked_timer :
  exists w t,
    run [CallSetup (Some 0%nat); Answer 0 answer_ok;
         CallSetup (Some 2%nat); Answer 1 answer_ok;
         Tick 1; Answer 2 answer_fault;
         Tick 0; Answer 4 answer_lost; Answer 5 answer_ok]
        (initial true sample_models)
    = Some (w, t)
    /\ last t = Some (Raise TypeError)
    /\ _cache_model w = None
    /\ timers w = [0%nat].
Proof.
  eexists. eexists. split; [vm_compute; reflexivity|].
  repeat split; vm_compute; reflexivity.
Qed.

Lemma reconnect_budget_witness :
  _retryCount (sample_active true) = 5
  /\ count_along injection_success five_lost_contexts (sample_active true)
     = 0%nat
  /\ count_along lost_failure five_lost_contexts (sample_active true) = 5%nat
  /\ exists w t,
       run five_lost_contexts (sample_active true) = Some (w, t)
       /\ _retryCount w = 0
       /\ lost_failure (Answer 7 answer_lost) w = true
       /\ step (Answer 7 answer_lost) w = Some (answered 7 w, [])
       /\ forall w' t', step (Answer 7 answer_lost) w = Some (w', t') ->
                        _retryCount w' = 0 /\ t' = [].
Proof.
  assert (H0 : count_along injection_success five_lost_contexts
                 (sample_active true) = 0%nat) by (vm_compute; reflexivity).
  assert (H5 : count_along lost_failure five_lost_contexts
                 (sample_active true) = 5%nat) by (vm_compute; reflexivity).
  split; [reflexivity|]. split; [exact H0|]. split; [exact H5|].
  destruct (run five_lost_contexts (sample_active true)) as [[w t]|] eqn:R;
    [|vm_compute in R; discriminate R].
  exists w, t. split; [reflexivity|].
  destruct reconnect_budget as (_ & _ & _ & _ & B).
  destruct (B five_lost_contexts (sample_active true) w t eq_refl R H0 H5)
    as [Z0 Hnext].
  assert (L : lost_failure (Answer 7 answer_lost) w = true)
    by (vm_compute in R; injection R as <- _; vm_compute; reflexivity).
  split; [exact Z0|]. split; [exact L|].
  split; [vm_compute in R; injection R as <- _; vm_compute; reflexivity|].
  intros w' t' Hs. exact (Hnext _ w' t' Hs L).
Defined.

Lemma remote_failure_classification_witness :
  lostContext (Some (mkRemoteObject None
                 (Some "TypeError: Cannot call method 'getModel' of undefined")))
  = true
  /\ _whenRemoteCallFailed
       (Some (mkRemoteObject None
                (Some "TypeError: Cannot call method 'getModel' of undefined")))
       (sample_active true)
     = _reconnect (sample_active true)
  /\ lostContext (Some (mkRemoteObject None
                    (Some "ReferenceError: shape is not defined"))) = false
  /\ (_whenRemoteCallFailed
        (Some (mkRemoteObject None
                 (Some "ReferenceError: shape is not defined")))
        (sample_active true)).1.2
     = [Evaluate 2 remove_expr]
  /\ _cache_model
       (_whenRemoteCallFailed
          (Some (mkRemoteObject None
                   (Some "ReferenceError: shape is not defined")))
          (sample_active true)).1.1
     = None.
Proof.
  destruct (remote_failure_classification
              (Some (mkRemoteObject None
                 (Some "TypeError: Cannot call method 'getModel' of undefined")))
              (sample_active true)) as (_ & _ & A & _).
  destruct (remote_failure_classification
              (Some (mkRemoteObject None
                 (Some "ReferenceError: shape is not defined")))
              (sample_active true)) as (_ & _ & _ & B).
  destruct (B eq_refl) as (_ & C & _ & _ & D).
  split; [reflexivity|]. split; [exact (A eq_refl)|]. split; [reflexivity|].
  split; [exact D|exact C].
Defined.

Lemma remove_without_editor_returns_undefined_witness :
  _hasEditor (initial true sample_models) = false
  /\ _remove (initial true sample_models)
     = (initial true sample_models, [], Normal Undefined)
  /\ Undefined <> Promise Resolved.
Proof.
  split; [reflexivity|].
  exact (remove_without_editor_returns_undefined
           (initial true sample_models) eq_refl).
Defined.

(** The example of the merge: [{a:1,b:2}] polled with [{b:3,c:4}] becomes
    [{a:1,b:3,c:4}] and is notified; the same snapshot polled again with
    its own content is not. *)
Example sync_merges_and_notifies :
  sync (JObj [("b", JNum 3); ("c", JNum 4)])
    (set_model (<["a" := JNum 1]> (<["b" := JNum 2]> ∅))
       (initial true sample_models))
  = (set_model (<["a" := JNum 1]> (<["b" := JNum 3]> (<["c" := JNum 4]> ∅)))
       (initial true sample_models),
     [TriggerModelChange (<["a" := JNum 1]> (<["b" := JNum 3]> (<["c" := JNum 4]> ∅)))],
     Normal tt).
Proof. vm_compute. reflexivity. Qed.

Example sync_again_is_silent :
  sync (JObj [("a", JNum 1); ("b", JNum 3); ("c", JNum 4)])
    (set_model (<["a" := JNum 1]> (<["b" := JNum 3]> (<["c" := JNum 4]> ∅)))
       (initial true sample_models))
  = (set_model (<["a" := JNum 1]> (<["b" := JNum 3]> (<["c" := JNum 4]> ∅)))
       (initial true sample_models),
     [], Normal tt).
Proof. vm_compute. reflexivity. Qed.

(** The two zeros are not deeply equal: an entry [[0]] polled with [[-0]]
    is overwritten and notified. *)
Example sync_tells_zeros_apart :
  isEqual (JArr [JNum 0]) (JArr [JNegZero]) = false
  /\ falsy_exact
  /\ sync (JObj [("a", JArr [JNegZero])])
       (set_model {["a" := JArr [JNum 0]]} (initial true sample_models))
     = (set_model {["a" := JArr [JNegZero]]} (initial true sample_models),
        [TriggerModelChange {["a" := JArr [JNegZero]]}], Normal tt).
Proof.
  split; [reflexivity|]. split; [exact deep_equal_falsy|].
  vm_compute. reflexivity.
Qed.

(** ** More properties on the sample data *)

Lemma poll_only_adds_or_overwrites_witness :
  model_text (Some (mkRemoteObject (Some (JStr text_bc)) None)) = Some text_bc
  /\ String.eqb text_bc EmptyString = false
  /\ JSON_parse text_bc = Some (JObj [("b", JNum 3); ("c", JNum 4)])
  /\ is_Some (_model (_whenGetRemoteModel
                        (Some (mkRemoteObject (Some (JStr text_bc)) None))
                        (sample_active true)).1.1 !! "selector")
  /\ _model (_whenGetRemoteModel
               (Some (mkRemoteObject (Some (JStr text_bc)) None))
               (sample_active true)).1.1 !! "value"
     = Some (JStr "circle(50%)").
Proof.
  assert (H1 : JSON_parse text_bc = Some (JObj [("b", JNum 3); ("c", JNum 4)]))
    by (vm_compute; reflexivity).
  destruct (poll_only_adds_or_overwrites
              (Some (mkRemoteObject (Some (JStr text_bc)) None)) text_bc
              (JObj [("b", JNum 3); ("c", JNum 4)]) (sample_active true)
              eq_refl eq_refl H1) as (_ & _ & A & B & _).
  split; [reflexivity|]. split; [reflexivity|]. split; [exact H1|]. split.
  - apply A. vm_compute. eauto.
  - rewrite B; [vm_compute; reflexivity|].
    cbn. intros Hin. apply elem_of_cons in Hin as [Hin|Hin]; [discriminate|].
    apply elem_of_cons in Hin as [Hin|Hin]; [discriminate|].
    apply elem_of_nil in Hin. exact Hin.
Defined.

Lemma poll_notifies_exactly_witness :
  model_text (Some (mkRemoteObject (Some (JStr text_bc)) None)) = Some text_bc
  /\ String.eqb text_bc EmptyString = false
  /\ JSON_parse text_bc = Some (JObj [("b", JNum 3); ("c", JNum 4)])
  /\ (_whenGetRemoteModel (Some (mkRemoteObject (Some (JStr text_bc)) None))
        (sample_active true)).1.2
     = [TriggerModelChange
          (_model (_whenGetRemoteModel
                     (Some (mkRemoteObject (Some (JStr text_bc)) None))
                     (sample_active true)).1.1)].
Proof.
  assert (H1 : JSON_parse text_bc = Some (JObj [("b", JNum 3); ("c", JNum 4)]))
    by (vm_compute; reflexivity).
  split; [reflexivity|]. split; [reflexivity|]. split; [exact H1|].
  rewrite (poll_notifies_exactly
             (Some (mkRemoteObject (Some (JStr text_bc)) None)) text_bc
             (JObj [("b", JNum 3); ("c", JNum 4)]) (sample_active true)
             eq_refl eq_refl H1) at 1.
  reflexivity.
Defined.

Lemma poll_stores_polled_values_witness :
  model_text (Some (mkRemoteObject (Some (JStr text_bc)) None)) = Some text_bc
  /\ String.eqb text_bc EmptyString = false
  /\ JSON_parse text_bc = Some (JObj [("b", JNum 3); ("c", JNum 4)])
  /\ NoDup (for_in (JObj [("b", JNum 3); ("c", JNum 4)])).*1
  /\ ("b", JNum 3) ∈ for_in (JObj [("b", JNum 3); ("c", JNum 4)])
  /\ (_model (_whenGetRemoteModel
                (Some (mkRemoteObject (Some (JStr text_bc)) None))
                (sample_active true)).1.1 !! "b" = Some (JNum 3)
      \/ (_model (_whenGetRemoteModel
                    (Some (mkRemoteObject (Some (JStr text_bc)) None))
                    (sample_active true)).1.1 !! "b"
          = _model (sample_active true) !! "b"
          /\ truthy (_model (sample_active true) !! "b") = true
          /\ isEqual_prop (_model (sample_active true) !! "b") (JNum 3) = true)).
Proof.
  assert (H1 : JSON_parse text_bc = Some (JObj [("b", JNum 3); ("c", JNum 4)]))
    by (vm_compute; reflexivity).
  assert (H2 : NoDup (for_in (JObj [("b", JNum 3); ("c", JNum 4)])).*1).
  { cbn. apply NoDup_cons. split.
    - intros Hin. apply list_elem_of_singleton in Hin. discriminate.
    - apply NoDup_singleton. }
  assert (H3 : ("b", JNum 3) ∈ for_in (JObj [("b", JNum 3); ("c", JNum 4)]))
    by apply list_elem_of_here.
  split; [reflexivity|]. split; [reflexivity|]. split; [exact H1|].
  split; [exact H2|]. split; [exact H3|].
  exact (poll_stores_polled_values
           (Some (mkRemoteObject (Some (JStr text_bc)) None)) text_bc
           (JObj [("b", JNum 3); ("c", JNum 4)]) (sample_active true)
           "b" (JNum 3) eq_refl eq_refl H1 H2 H3).
Defined.

Lemma poll_twice_same_snapshot_witness :
  model_text (Some (mkRemoteObject (Some (JStr text_a0)) None)) = Some text_a0
  /\ String.eqb text_a0 EmptyString = false
  /\ JSON_parse text_a0 = Some (JObj [("a", JNum 0)])
  /\ NoDup (for_in (JObj [("a", JNum 0)])).*1
  /\ _model (_whenGetRemoteModel
               (Some (mkRemoteObject (Some (JStr text_a0)) None))
               (_whenGetRemoteModel
                  (Some (mkRemoteObject (Some (JStr text_a0)) None))
                  (sample_active true)).1.1).1.1
     = _model (_whenGetRemoteModel
                 (Some (mkRemoteObject (Some (JStr text_a0)) None))
                 (sample_active true)).1.1.
Proof.
  assert (H1 : JSON_parse text_a0 = Some (JObj [("a", JNum 0)]))
    by (vm_compute; reflexivity).
  assert (H2 : NoDup (for_in (JObj [("a", JNum 0)])).*1)
    by (cbn; apply NoDup_singleton).
  split; [reflexivity|]. split; [reflexivity|]. split; [exact H1|].
  split; [exact H2|].
  exact (poll_twice_same_snapshot
           (Some (mkRemoteObject (Some (JStr text_a0)) None)) text_a0
           (JObj [("a", JNum 0)]) (sample_active true)
           eq_refl eq_refl H1 H2).
Defined.

Lemma remove_resets_and_is_idempotent_witness :
  _hasEditor (sample_active true) = true
  /\ _syncInterval (sample_active true) = Some 0%nat
  /\ _hasEditor (_remove (sample_active true)).1.1 = false
  /\ _model (_remove (sample_active true)).1.1 = ∅
  /\ (0%nat ∉ timers (_remove (sample_active true)).1.1)
  /\ _remove (_remove (sample_active true)).1.1
     = ((_remove (sample_active true)).1.1, [], Normal Undefined).
Proof.
  destruct (remove_resets_and_is_idempotent (sample_active true))
    as (A & B & C & _ & _ & _ & D).
  split; [reflexivity|]. split; [reflexivity|]. split; [exact A|].
  split; [exact (B eq_refl)|]. split; [exact (C 0%nat eq_refl eq_refl)|exact D].
Defined.

Lemma offline_setup_and_update_tear_down_witness :
  connected (sample_active false) = false
  /\ (_setup (Some 1%nat) (sample_active false)).1.2 = []
  /\ _hasEditor (_setup (Some 1%nat) (sample_active false)).1.1 = false
  /\ (_update (Some 2%nat) (sample_active false)).2
     = Normal (Promise Rejected).
Proof.
  destruct (offline_setup_and_update_tear_down 1%nat (sample_active false)
              eq_refl) as ((A & B & _) & _).
  destruct (offline_setup_and_update_tear_down 2%nat (sample_active false)
              eq_refl) as (_ & _ & _ & C).
  split; [reflexivity|]. split; [exact A|]. split; [exact B|exact C].
Defined.

Lemma offline_tick_tears_down_witness :
  connected (sample_active false) = false
  /\ _hasEditor (sample_active false) = true
  /\ _syncInterval (sample_active false) = Some 0%nat
  /\ (_onSyncTick (sample_active false)).1.2 = []
  /\ _hasEditor (_onSyncTick (sample_active false)).1.1 = false
  /\ _cache_model (_onSyncTick (sample_active false)).1.1 = None
  /\ 0%nat ∉ timers (_onSyncTick (sample_active false)).1.1.
Proof.
  destruct (offline_tick_tears_down (sample_active false) eq_refl)
    as (A & B & C & D).
  split; [reflexivity|]. split; [reflexivity|]. split; [reflexivity|].
  split; [exact A|]. split; [exact B|]. split; [exact C|].
  exact (D 0%nat eq_refl eq_refl).
Defined.

Lemma init_caches_and_announces_witness :
  connected (initial false sample_models) = false
  /\ String.concat ";" (LiveEditorRemoteDriver :: default [] (Some ["p();"]))
     <> EmptyString
  /\ _cache_dependencies (_init (Some ["p();"]) (initial false sample_models)).1.1
     = Some [LiveEditorRemoteDriver; "p();"]
  /\ (_init (Some ["p();"]) (initial false sample_models)).1.2 = [TriggerInit]
  /\ (_init (Some ["p();"]) (initial true sample_models)).1.2
     = [TriggerInit;
        Evaluate 0 (String.concat ";" [LiveEditorRemoteDriver; "p();"])].
Proof.
  assert (Hne : String.concat ";"
                  (LiveEditorRemoteDriver :: default [] (Some ["p();"]))
                <> EmptyString) by (vm_compute; discriminate).
  destruct (init_caches_and_announces (Some ["p();"])
              (initial false sample_models)) as (A & _ & B & _).
  destruct (init_caches_and_announces (Some ["p();"])
              (initial true sample_models)) as (_ & _ & _ & C & _).
  split; [reflexivity|]. split; [exact Hne|]. split; [exact A|].
  split; [exact (proj1 (B eq_refl Hne))|exact (proj1 (C eq_refl Hne))].
Defined.

Lemma reconnect_adds_driver_text_witness :
  _retryCount (set_cache_dependencies (Some [LiveEditorRemoteDriver])
                 (sample_active true)) <> 0
  /\ _cache_dependencies
       (set_cache_dependencies (Some [LiveEditorRemoteDriver])
          (sample_active true))
     = Some [LiveEditorRemoteDriver]
  /\ _cache_dependencies
       (_reconnect (set_cache_dependencies (Some [LiveEditorRemoteDriver])
                      (sample_active true))).1.1
     = Some [LiveEditorRemoteDriver; LiveEditorRemoteDriver].
Proof.
  assert (Hz : _retryCount
                 (set_cache_dependencies (Some [LiveEditorRemoteDriver])
                    (sample_active true)) <> 0) by (cbn; lia).
  split; [exact Hz|]. split; [reflexivity|].
  exact (proj1 (reconnect_adds_driver_text
                  (set_cache_dependencies (Some [LiveEditorRemoteDriver])
                     (sample_active true))
                  [LiveEditorRemoteDriver] Hz eq_refl)).
Defined.

Lemma retryCount_in_range_witness :
  0 <= _retryCount (sample_active true) <= 5
  /\ exists w t,
       run five_lost_contexts (sample_active true) = Some (w, t)
       /\ 0 <= _retryCount w <= 5.
Proof.
  assert (H0 : 0 <= _retryCount (sample_active true) <= 5) by (cbn; lia).
  split; [exact H0|].
  destruct (run five_lost_contexts (sample_active true)) as [[w t]|] eqn:R;
    [|vm_compute in R; discriminate R].
  exists w, t. split; [reflexivity|].
  exact (retryCount_in_range five_lost_contexts (sample_active true) w t H0 R).
Defined.

Lemma setup_success_starts_another_timer_witness :
  handlers_of 2 (issued OnSetup (sample_active true)) = Some OnSetup
  /\ exists w',
       step (Answer 2 answer_ok) (issued OnSetup (sample_active true))
       = Some (w', [])
       /\ _syncInterval w' = Some 1%nat
       /\ timers w' = [1%nat; 0%nat]
       /\ 0%nat ∈ timers (_remove w').1.1.
Proof.
  destruct (setup_success_starts_another_timer 2%nat None
              (issued OnSetup (sample_active true)) eq_refl)
    as (w' & A & _ & B & C & D).
  split; [reflexivity|]. exists w'. split; [exact A|]. split; [exact B|].
  split; [exact C|]. apply D; [apply list_elem_of_here|discriminate].
Defined.

Lemma offline_sends_nothing_witness :
  connected (sample_active false) = false
  /\ exists w' t,
       step (CallUpdate (Some 1%nat)) (sample_active false) = Some (w', t)
       /\ evaluations t = [] /\ connected w' = false.
Proof.
  split; [reflexivity|].
  destruct (step (CallUpdate (Some 1%nat)) (sample_active false))
    as [[w' t]|] eqn:S; [|vm_compute in S; discriminate S].
  exists w', t. split; [reflexivity|].
  destruct (offline_sends_nothing (CallUpdate (Some 1%nat))
              (sample_active false) w' t eq_refl S) as [A B].
  split; [exact A|]. apply B. discriminate.
Defined.

Lemma never_evaluates_empty_expression_witness :
  exists w t,
    run restore_without_model (initial true sample_models) = Some (w, t)
    /\ Evaluate 3 remove_expr ∈ t
    /\ remove_expr <> EmptyString.
Proof.
  destruct (run restore_without_model (initial true sample_models))
    as [[w t]|] eqn:R; [|vm_compute in R; discriminate R].
  exists w, t. split; [reflexivity|].
  assert (Hin : Evaluate 3 remove_expr ∈ t).
  { vm_compute in R. injection R as _ <-.
    apply list_elem_of_In. vm_compute. auto 8. }
  split; [exact Hin|].
  exact (never_evaluates_empty_expression restore_without_model
           (initial true sample_models) w t 3%nat remove_expr R Hin).
Defined.

Lemma editor_keeps_loop_running_witness :
  loop_running (initial true sample_models) = true
  /\ exists w t,
       run [CallSetup (Some 0%nat); Answer 0 answer_ok; CallSetup (Some 2%nat);
            Answer 1 answer_ok] (initial true sample_models) = Some (w, t)
       /\ _hasEditor w = true
       /\ exists id, _syncInterval w = Some id /\ id ∈ timers w.
Proof.
  split; [reflexivity|].
  destruct (run [CallSetup (Some 0%nat); Answer 0 answer_ok;
                 CallSetup (Some 2%nat); Answer 1 answer_ok]
              (initial true sample_models)) as [[w t]|] eqn:R;
    [|vm_compute in R; discriminate R].
  exists w, t. split; [reflexivity|].
  assert (E : _hasEditor w = true)
    by (vm_compute in R; injection R as <- _; reflexivity).
  split; [exact E|].
  exact (editor_keeps_loop_running _ (initial true sample_models) w t
           eq_refl R E).
Defined.

Lemma setup_round_trip_witness :
  _hasEditor (initial true sample_models) = false
  /\ connected (initial true sample_models) = true
  /\ (exists w2,
        run [CallSetup (Some 0%nat); Answer 0 answer_ok]
            (initial true sample_models)
        = Some (w2, [Evaluate 0 (setup_expr (sample_models 0%nat))])
        /\ _hasEditor w2 = true
        /\ _cache_model w2 = Some 0%nat)
  /\ lostContext (Some (mkRemoteObject None
                          (Some "ReferenceError: shape is not defined")))
     = false
  /\ (exists w2,
        run [CallSetup (Some 0%nat); Answer 0 answer_fault]
            (initial true sample_models)
        = Some (w2, [Evaluate 0 (setup_expr (sample_models 0%nat))])
        /\ _hasEditor w2 = false
        /\ _cache_model w2 = None).
Proof.
  destruct (setup_round_trip 0%nat (initial true sample_models) None
              eq_refl eq_refl) as [(w2 & A & B & _ & _ & C) _].
  destruct (setup_round_trip 0%nat (initial true sample_models)
              (Some (mkRemoteObject None
                       (Some "ReferenceError: shape is not defined")))
              eq_refl eq_refl) as [_ D].
  split; [reflexivity|]. split; [reflexivity|].
  split; [exists w2; split; [exact A|split; [exact B|exact C]]|].
  split; [reflexivity|]. exact (D eq_refl).
Defined.

Lemma update_same_target_keeps_session_witness :
  _hasEditor (sample_active true) = true
  /\ connected (sample_active true) = true
  /\ strict_eq (selector (sample_models 1%nat))
       (_model (sample_active true) !! "selector") = true
  /\ strict_eq (property (sample_models 1%nat))
       (_model (sample_active true) !! "property") = true
  /\ (_update (Some 1%nat) (sample_active true)).1.2
     = [Evaluate 2 (update_expr (sample_models 1%nat))]
  /\ _model (_update (Some 1%nat) (sample_active true)).1.1 = sample_snapshot
  /\ timers (_update (Some 1%nat) (sample_active true)).1.1 = [0%nat].
Proof.
  assert (H1 : strict_eq (selector (models (sample_active true) 1%nat))
                 (_model (sample_active true) !! "selector") = true)
    by (vm_compute; reflexivity).
  assert (H2 : strict_eq (property (models (sample_active true) 1%nat))
                 (_model (sample_active true) !! "property") = true)
    by (vm_compute; reflexivity).
  destruct (update_same_target_keeps_session 1%nat (sample_active true) None
              eq_refl eq_refl H1 H2) as (A & _ & _ & B & C).
  split; [reflexivity|]. split; [reflexivity|]. split; [exact H1|].
  split; [exact H2|].
  split; [exact (f_equal (fun x => x.1.2) A)|].
  split; [exact (eq_trans (f_equal (fun x => _model x.1.1) A) B)|].
  exact (eq_trans (f_equal (fun x => timers x.1.1) A) C).
Defined.

Lemma event_sends_at_most_one_witness :
  exists w' t,
    step (Answer 2 answer_fault) (issued OnSync (sample_active true))
    = Some (w', t)
    /\ evaluations t = [remove_expr]
    /\ (length (evaluations t) <= 1)%nat.
Proof.
  destruct (step (Answer 2 answer_fault) (issued OnSync (sample_active true)))
    as [[w' t]|] eqn:S; [|vm_compute in S; discriminate S].
  exists w', t. split; [reflexivity|]. split.
  - vm_compute in S. injection S as _ <-. vm_compute. reflexivity.
  - exact (event_sends_at_most_one _ _ w' t S).
Defined.
